(** * zen-options-trader: the breakout strategy of [strategy.py]

    A shallow embedding of [src/strategy.py] and the properties of its
    trigger detector, position sizer, option selector, bracket computation
    and orchestrator.

    Conventions of the embedding.
    - Python floats (prices, budget, percentages) are exact rationals [Q]:
      every finite float is a rational, comparisons ([>], [<]) are exact, and
      arithmetic is taken without rounding.  NaN and infinities are outside
      the model.
    - [int(x)] on a float truncates toward zero ([py_int]); [math.floor] and
      [math.ceil] are [Qfloor] and [Qceiling].
    - pandas timestamps are integers (nanoseconds since the epoch, UTC),
      taken unbounded.
    - The module-level dictionary [C] is the record [Config], passed
      explicitly.
    - A failing Python call returns [Raise e]; the type [exn] stands for
      instances of [Exception] (what [except Exception] catches). *)

From Stdlib Require Import ZArith QArith Qround Qabs List String Bool Lia.
From Stdlib Require Import Sorted Lqa.
Import ListNotations.
Open Scope Z_scope.

(* ------------------------------------------------------------------ *)
(** ** Python values *)

Inductive exn : Type :=
| IndexError          (* positional access out of bounds *)
| ValueError          (* truth value of a Series, malformed time string *)
| BrokerError (code : Z).   (* anything ib_insync raises *)

Inductive result (A : Type) : Type :=
| Ok (a : A)
| Raise (e : exn).
Arguments Ok {A} a.
Arguments Raise {A} e.

(** [int(x)] for a float [x]: truncation toward zero. *)
Definition py_int (x : Q) : Z :=
  if Qle_bool 0 x then Qfloor x else Qceiling x.

(** [a > b] and [a < b] on floats. *)
Definition Qgtb (a b : Q) : bool := negb (Qle_bool a b).
Definition Qltb (a b : Q) : bool := negb (Qle_bool b a).

(** A float is truthy when it is not zero. *)
Definition truthy (x : Q) : bool := negb (Qeq_bool x 0).

(* ------------------------------------------------------------------ *)
(** ** Configuration: the dictionary [C] *)

Record Config : Type := {
  symbols          : list string;
  position_usd     : Q;
  ignore_minutes   : Z;
  otm_threshold    : Q;
  exp_days_ahead   : Z;
  mode             : string;
  take_profit_pct  : Q;
  partial_sell_pct : Q;
  stop_loss_pct    : Q;
  (** [time.fromisoformat(C["eod_time"])]: nanoseconds past local midnight,
      or the [ValueError] of a malformed string. *)
  eod_time         : result Z;
  ib_host          : string;
  ib_port          : Z;
  ib_client_id     : Z
}.

Definition is_dummy (C : Config) : bool := String.eqb (mode C) "DUMMY".

(* ------------------------------------------------------------------ *)
(** ** Bars and data frames *)

(** A row of the frame: its index (timestamp) and the four columns. *)
Record Bar : Type := {
  ts    : Z;
  open  : Q;
  high  : Q;
  low   : Q;
  close : Q
}.

Definition DataFrame : Type := list Bar.

Definition ns_per_minute : Z := 60 * 1000000000.

(** [pd.Timedelta(minutes=m)] in nanoseconds. *)
Definition Timedelta_minutes (m : Z) : Z := m * ns_per_minute.

Inductive direction : Type := up | down.

Definition direction_eqb (a b : direction) : bool :=
  match a, b with
  | up, up | down, down => true
  | _, _ => false
  end.

(** ['up' if bar.close > bar.open else 'down'] *)
Definition dir_of (b : Bar) : direction :=
  if Qgtb (close b) (open b) then up else down.

(** What [df2.loc[label]] yields: the row when the label is unique in the
    index, a sub-frame of all matching rows otherwise. *)
Inductive selection : Type :=
| Row (b : Bar)
| Rows (bs : list Bar).

Definition loc (df : DataFrame) (label : Z) : selection :=
  match filter (fun b => ts b =? label) df with
  | [b] => Row b
  | bs => Rows bs
  end.

(* ------------------------------------------------------------------ *)
(** ** Trigger logic: [find_trigger] *)

(** [df[df.index >= df.index[0] + pd.Timedelta(minutes=...)]], given the
    first index label [t0]. *)
Definition after_warmup (C : Config) (t0 : Z) (df : DataFrame) : DataFrame :=
  filter (fun b => t0 + Timedelta_minutes (ignore_minutes C) <=? ts b) df.

(** The test of lines 85-87 on the reference candle and the current one. *)
Definition fires (prev curr : Bar) : bool :=
  let prev_dir := dir_of prev in
  let curr_dir := dir_of curr in
  direction_eqb prev_dir curr_dir &&
  ((direction_eqb prev_dir up && Qgtb (close curr) (high prev)) ||
   (direction_eqb prev_dir down && Qltb (close curr) (low prev))).

(** The [for curr in df2.iloc[1:].itertuples()] loop; [trigger] is the
    loop-carried variable of that name.  Comparing the columns of a
    sub-frame gives a Series, whose truth value raises [ValueError]. *)
Fixpoint scan (df2 : DataFrame) (trigger : selection) (rest : list Bar)
  : result (option (Z * direction)) :=
  match rest with
  | [] => Ok None
  | curr :: rest' =>
      match trigger with
      | Rows _ => Raise ValueError
      | Row prev =>
          if fires prev curr
          then Ok (Some (ts curr, dir_of prev))
          else scan df2 (loc df2 (ts curr)) rest'
      end
  end.

Definition find_trigger (C : Config) (df : DataFrame)
  : result (option (Z * direction)) :=
  match df with
  | [] => Raise IndexError                      (* df.index[0] *)
  | b0 :: _ =>
      let df2 := after_warmup C (ts b0) df in
      match df2 with
      | [] => Ok None                           (* df2.empty *)
      | first :: rest => scan df2 (Row first) rest
      end
  end.

(* ------------------------------------------------------------------ *)
(** ** Position sizing: [size] *)

Definition size (C : Config) (price : Q) : Z :=
  if truthy price && Qgtb price 0
  then py_int (position_usd C / (price * 100))
  else 0.

(* ------------------------------------------------------------------ *)
(** ** Option selection: strike and right *)

Inductive right_ : Type := CALL | PUT.

(** Lines 100-102 of [select_option]. *)
Definition select_strike (C : Config) (d : direction) (price : Q) : Z :=
  let strike := match d with up => Qceiling price | down => Qfloor price end in
  if Qgtb (Qabs (inject_Z strike - price)) (otm_threshold C)
  then py_int price + (match d with up => 1 | down => -1 end)
  else strike.

Definition select_right (d : direction) : right_ :=
  match d with up => CALL | down => PUT end.

(* ------------------------------------------------------------------ *)
(** ** Contracts, orders, positions (the ib_insync objects the code builds) *)

(** [Option(sym, exp, strike, right, 'SMART')]; the expiry is the ordinal of
    its calendar day rather than the ['%Y%m%d'] text. *)
Record Contract : Type := {
  c_symbol   : string;
  c_expiry   : Z;
  c_strike   : Z;
  c_right    : right_;
  c_exchange : string
}.

Inductive side : Type := BUY | SELL.

Record Order : Type := {
  action        : side;
  totalQuantity : Z;
  lmtPrice      : option Q;     (* [None]: a market order *)
  ocaGroup      : option Z;     (* [Some s]: the group "OCA_" ++ HHMMSS at second [s] *)
  ocaType       : Z
}.

Definition MarketOrder (a : side) (q : Z) : Order :=
  {| action := a; totalQuantity := q; lmtPrice := None;
     ocaGroup := None; ocaType := 0 |}.

Definition LimitOrder (a : side) (q : Z) (p : Q) : Order :=
  {| action := a; totalQuantity := q; lmtPrice := Some p;
     ocaGroup := None; ocaType := 0 |}.

Definition with_oca (o : Order) (group : Z) (ty : Z) : Order :=
  {| action := action o; totalQuantity := totalQuantity o;
     lmtPrice := lmtPrice o; ocaGroup := Some group; ocaType := ty |}.

Record Position : Type := {
  p_contract : Contract;
  p_position : Q
}.

(** [datetime.now(...)]: calendar day and nanoseconds past midnight. *)
Record DateTime : Type := {
  dt_date : Z;
  dt_tod  : Z
}.

Definition ns_per_second : Z := 1000000000.
Definition ns_per_day : Z := 86400 * ns_per_second.

(* ------------------------------------------------------------------ *)
(** ** Interactions with the outside world *)

Inductive level : Type := INFO | WARNING | ERROR.

Inductive message : Type :=
| Msg_started
| Msg_completed
| Msg_connected
| Msg_dummy_mode
| Msg_no_trigger (sym : string)
| Msg_trigger (sym : string) (t_time : Z) (d : direction)
| Msg_qty_skip (sym : string) (qty : Z)
| Msg_dummy_buy (qty : Z) (c : Contract)
| Msg_entered (qty : Z) (fill : Q) (c : Contract)
| Msg_bracket (tp sl : Q) (sym : string)
| Msg_dummy_eod
| Msg_eod_done
| Msg_error (sym : string) (e : exn).

(** The functions of the module that act on the world; [Call f] marks the
    entry of one. *)
Inductive func : Type :=
| F_connect_ib
| F_get_bars (sym : string)
| F_select_option (sym : string)
| F_place_orders
| F_eod_cleanup.

Inductive event : Type :=
| Call (f : func)
| Log (l : level) (m : message)
| Print (m : message)
| Datetime_now (aware : bool)
| Randn (n : nat)
| IB_connect (host : string) (port clientId : Z)
| IB_reqHistoricalData (sym : string)
| IB_placeOrder (c : Contract) (o : Order)
| IB_sleep (secs : Z)
| IB_openOrders
| IB_cancelOrder (o : Order)
| IB_positions
| IB_disconnect.

Definition history : Type := list event.

(** What the world answers; every answer may depend on all that happened
    before.  [w_hist] stands for lines 64-71 of [get_bars] as a whole: the
    request, [util.df] and the index conversion. *)
Record World : Type := {
  w_now          : history -> bool -> DateTime;
  w_randn        : history -> nat -> Q;
  w_connect      : history -> result unit;
  w_hist         : history -> string -> result DataFrame;
  w_placeOrder   : history -> Contract -> Order -> result unit;
  w_sleep        : history -> result unit;
  w_avgFillPrice : history -> Q;
  w_openOrders   : history -> result (list Order);
  w_cancelOrder  : history -> Order -> result unit;
  w_positions    : history -> result (list Position);
  w_disconnect   : history -> result unit
}.

(** A computation reads the history so far and gives its result with the
    events it adds. *)
Definition M (A : Type) : Type := history -> result A * list event.

Definition ret {A : Type} (a : A) : M A := fun _ => (Ok a, []).

Definition bind {A B : Type} (m : M A) (f : A -> M B) : M B :=
  fun h =>
    match m h with
    | (Ok a, out) => let (r, out') := f a (h ++ out) in (r, out ++ out')
    | (Raise e, out) => (Raise e, out)
    end.

(** [try: body  except Exception as e: handler e] *)
Definition try_except {A : Type} (body : M A) (handler : exn -> M A) : M A :=
  fun h =>
    match body h with
    | (Ok a, out) => (Ok a, out)
    | (Raise e, out) =>
        let (r, out') := handler e (h ++ out) in (r, out ++ out')
    end.

Definition lift {A : Type} (r : result A) : M A := fun _ => (r, []).

Definition emit (e : event) : M unit := fun _ => (Ok tt, [e]).

(** An interaction: the event is recorded and the world answers. *)
Definition ask {A : Type} (e : event) (answer : history -> result A) : M A :=
  fun h => (answer h, [e]).

(** Reading a field the broker keeps up to date. *)
Definition peek {A : Type} (read : history -> A) : M A :=
  fun h => (Ok (read h), []).

Declare Scope py_scope.
Delimit Scope py_scope with py.
Notation "x <- m ;; k" := (bind m (fun x => k))
  (at level 61, m at next level, right associativity) : py_scope.
Notation "m ;; k" := (bind m (fun _ => k))
  (at level 61, right associativity) : py_scope.
Open Scope py_scope.

Fixpoint for_each {A : Type} (body : A -> M unit) (l : list A) : M unit :=
  match l with
  | [] => ret tt
  | x :: l' => body x ;; for_each body l'
  end.

Definition events {A : Type} (m : M A) (h : history) : list event := snd (m h).
Definition outcome {A : Type} (m : M A) (h : history) : result A := fst (m h).

(** [logging.<level>(msg)] followed by [print(msg)]. *)
Definition log_print (l : level) (m : message) : M unit :=
  emit (Log l m) ;; emit (Print m).

(* ------------------------------------------------------------------ *)
(** ** [connect_ib] *)

Definition connect_ib (W : World) (C : Config) : M unit :=
  emit (Call F_connect_ib) ;;
  if negb (is_dummy C) then
    ask (IB_connect (ib_host C) (ib_port C) (ib_client_id C)) (w_connect W) ;;
    emit (Log INFO Msg_connected)
  else
    emit (Log INFO Msg_dummy_mode).

(* ------------------------------------------------------------------ *)
(** ** [get_bars] *)

Fixpoint cumsum (acc : Q) (l : list Q) : list Q :=
  match l with
  | [] => []
  | x :: l' => (acc + x)%Q :: cumsum (acc + x)%Q l'
  end.

Definition datetime_ns (d : DateTime) : Z := dt_date d * ns_per_day + dt_tod d.

(** The frame of the DUMMY branch: 72 five-minute rows from six hours before
    [now], prices [400 + cumsum(noise)], open = close = price and
    high/low one unit away. *)
Definition dummy_frame (now : DateTime) (noise : list Q) : DataFrame :=
  let start := datetime_ns now - 6 * 60 * ns_per_minute in
  let prices := map (fun s => 400 + s)%Q (cumsum 0 noise) in
  map (fun ip : nat * Q =>
         let (i, p) := ip in
         {| ts := start + Z.of_nat i * (5 * ns_per_minute);
            open := p; high := (p + 1)%Q; low := (p - 1)%Q; close := p |})
      (combine (seq 0 72) prices).

Definition get_bars (W : World) (C : Config) (sym : string) : M DataFrame :=
  emit (Call (F_get_bars sym)) ;;
  if is_dummy C then
    now <- ask (Datetime_now false) (fun h => Ok (w_now W h false)) ;;
    noise <- ask (Randn 72) (fun h => Ok (map (w_randn W h) (seq 0 72))) ;;
    ret (dummy_frame now noise)
  else
    ask (IB_reqHistoricalData sym) (fun h => w_hist W h sym).

(* ------------------------------------------------------------------ *)
(** ** [select_option] *)

(** [series.iloc[-1]] *)
Fixpoint iloc_last {A : Type} (l : list A) : result A :=
  match l with
  | [] => Raise IndexError
  | [x] => Ok x
  | _ :: l' => iloc_last l'
  end.

(** [bars['close'].iloc[-1]] *)
Definition reference_price (bars : DataFrame) : result Q :=
  iloc_last (map close bars).

Definition select_option (W : World) (C : Config) (sym : string)
           (d : direction) (bars : DataFrame) : M Contract :=
  emit (Call (F_select_option sym)) ;;
  price <- lift (reference_price bars) ;;
  now <- ask (Datetime_now true) (fun h => Ok (w_now W h true)) ;;
  ret {| c_symbol := sym;
         c_expiry := dt_date now + exp_days_ahead C;
         c_strike := select_strike C d price;
         c_right := select_right d;
         c_exchange := "SMART" |}.

(* ------------------------------------------------------------------ *)
(** ** [place_orders] *)

(** The list [[(tp_qty, tp), (qty, sl)]] of lines 121-125. *)
Definition bracket (C : Config) (fill : Q) (qty : Z) : list (Z * Q) :=
  let tp := (fill * (1 + take_profit_pct C))%Q in
  let sl := (fill * (1 - stop_loss_pct C))%Q in
  let tp_qty := py_int (inject_Z qty * partial_sell_pct C) in
  [(tp_qty, tp); (qty, sl)].

Definition bracket_order (oca : Z) (qp : Z * Q) : Order :=
  with_oca (LimitOrder SELL (fst qp) (snd qp)) oca 2.

Definition place_orders (W : World) (C : Config) (contract : Contract)
           (qty : Z) : M unit :=
  emit (Call F_place_orders) ;;
  if qty <? 1 then
    emit (Log WARNING (Msg_qty_skip (c_symbol contract) qty))
  else if is_dummy C then
    log_print INFO (Msg_dummy_buy qty contract)
  else
    ask (IB_placeOrder contract (MarketOrder BUY qty))
        (fun h => w_placeOrder W h contract (MarketOrder BUY qty)) ;;
    ask (IB_sleep 1) (w_sleep W) ;;
    fill <- peek (w_avgFillPrice W) ;;
    emit (Log INFO (Msg_entered qty fill contract)) ;;
    let legs := bracket C fill qty in
    now <- ask (Datetime_now true) (fun h => Ok (w_now W h true)) ;;
    let oca := dt_tod now / ns_per_second in
    for_each (fun qp =>
                ask (IB_placeOrder contract (bracket_order oca qp))
                    (fun h => w_placeOrder W h contract (bracket_order oca qp)))
             legs ;;
    emit (Log INFO (Msg_bracket (fill * (1 + take_profit_pct C))%Q
                                (fill * (1 - stop_loss_pct C))%Q
                                (c_symbol contract))).

(* ------------------------------------------------------------------ *)
(** ** [eod_cleanup] *)

Definition flatten_position (W : World) (pos : Position) : M unit :=
  if truthy (p_position pos) then
    let sd := if Qgtb (p_position pos) 0 then SELL else BUY in
    let o := MarketOrder sd (Z.abs (py_int (p_position pos))) in
    ask (IB_placeOrder (p_contract pos) o)
        (fun h => w_placeOrder W h (p_contract pos) o)
  else ret tt.

Definition eod_cleanup (W : World) (C : Config) : M unit :=
  emit (Call F_eod_cleanup) ;;
  now <- ask (Datetime_now true) (fun h => Ok (w_now W h true)) ;;
  cutoff <- lift (eod_time C) ;;
  if dt_tod now <? cutoff then ret tt
  else if is_dummy C then
    log_print INFO Msg_dummy_eod
  else
    orders <- ask IB_openOrders (w_openOrders W) ;;
    for_each (fun o => ask (IB_cancelOrder o) (fun h => w_cancelOrder W h o))
             orders ;;
    positions <- ask IB_positions (w_positions W) ;;
    for_each (flatten_position W) positions ;;
    ask IB_disconnect (w_disconnect W) ;;
    emit (Log INFO Msg_eod_done).

(* ------------------------------------------------------------------ *)
(** ** [run_strategy] *)

(** Lines 162-172: what follows a trigger at [t_time] with direction [d]. *)
Definition trade (W : World) (C : Config) (sym : string) (bars : DataFrame)
           (t_time : Z) (d : direction) : M unit :=
  log_print INFO (Msg_trigger sym t_time d) ;;
  contract <- select_option W C sym d bars ;;
  price <- lift (reference_price bars) ;;
  let qty := size C price in
  if qty <? 1 then log_print WARNING (Msg_qty_skip sym qty)
  else place_orders W C contract qty.

(** The body of the [try] block for one symbol. *)
Definition process_symbol (W : World) (C : Config) (sym : string) : M unit :=
  bars <- get_bars W C sym ;;
  trig <- lift (find_trigger C bars) ;;
  match trig with
  | None => log_print INFO (Msg_no_trigger sym)
  | Some (t_time, d) => trade W C sym bars t_time d
  end.

(** One iteration of the loop: the [try] block and its handler. *)
Definition guarded_symbol (W : World) (C : Config) (sym : string) : M unit :=
  try_except (process_symbol W C sym)
             (fun e => log_print ERROR (Msg_error sym e)).

Definition run_strategy (W : World) (C : Config) : M unit :=
  log_print INFO Msg_started ;;
  connect_ib W C ;;
  for_each (guarded_symbol W C) (symbols C) ;;
  eod_cleanup W C ;;
  log_print INFO Msg_completed.

(* ------------------------------------------------------------------ *)
(** ** Vocabulary of the properties *)

(** A bar series as the data model has it: timestamps strictly increasing
    along the rows. *)
Definition bar_series (df : DataFrame) : Prop :=
  StronglySorted Z.lt (map ts df).

(** A candle is up iff its close is above its open; otherwise (a flat one
    included) it is down. *)
Definition candle_up (b : Bar) : Prop := (open b < close b)%Q.

(** The two-candle breakout pattern: both candles up and the close above the
    preceding high, or both down and the close below the preceding low. *)
Definition breakout (prev curr : Bar) : Prop :=
  (candle_up prev /\ candle_up curr /\ (high prev < close curr)%Q) \/
  (~ candle_up prev /\ ~ candle_up curr /\ (close curr < low prev)%Q).

(** Rows [i] and [i + 1] of [l]. *)
Definition adjacent (l : list Bar) (i : nat) (prev curr : Bar) : Prop :=
  nth_error l i = Some prev /\ nth_error l (S i) = Some curr.

(** The scan over rows only, for frames whose labels are unique. *)
Fixpoint scan_rows (prev : Bar) (rest : list Bar) : option (Z * direction) :=
  match rest with
  | [] => None
  | curr :: rest' =>
      if fires prev curr then Some (ts curr, dir_of prev)
      else scan_rows curr rest'
  end.

(** High and low of a bar enclose its open and close. *)
Definition consistent (b : Bar) : Prop :=
  (open b <= high b)%Q /\ (close b <= high b)%Q /\
  (low b <= open b)%Q /\ (low b <= close b)%Q.

(** Timestamp of [hh:mm] on the day of the epoch. *)
Definition at_hm (hh mm : Z) : Z := (hh * 60 + mm) * ns_per_minute.

(** The four bars 09:30 .. 09:33 of the scenario, with their highs and lows
    left open. *)
Definition scenario_bars (h0 l0 h1 l1 h2 l2 h3 l3 : Q) : DataFrame :=
  [ {| ts := at_hm 9 30; open := 400; high := h0; low := l0; close := 401 |};
    {| ts := at_hm 9 31; open := 401; high := h1; low := l1; close := 399 |};
    {| ts := at_hm 9 32; open := 3995 # 10; high := h2; low := l2;
       close := 3996 # 10 |};
    {| ts := at_hm 9 33; open := 3996 # 10; high := h3; low := l3;
       close := 3997 # 10 |} ].

(** The events that mark the start of a symbol's processing and the
    end-of-day step. *)
Definition is_marker (e : event) : bool :=
  match e with
  | Call (F_get_bars _) | Call F_eod_cleanup => true
  | _ => false
  end.

(** The operations of the broker session. *)
Definition is_broker_call (e : event) : bool :=
  match e with
  | IB_connect _ _ _ | IB_reqHistoricalData _ | IB_placeOrder _ _
  | IB_sleep _ | IB_openOrders | IB_cancelOrder _ | IB_positions
  | IB_disconnect => true
  | _ => false
  end.

Definition no_marker (e : event) : Prop := is_marker e = false.

(** Every event a computation adds, from any history, satisfies [P]. *)
Definition emits_only (P : event -> Prop) {A : Type} (m : M A) : Prop :=
  forall h, Forall P (events m h).

(* ------------------------------------------------------------------ *)
(** ** Sample inputs *)

(** The defaults of the [os.getenv] calls, with the 15:50 cutoff. *)
Definition default_config : Config :=
  {| symbols := ["SPY"%string];
     position_usd := 10000;
     ignore_minutes := 15;
     otm_threshold := 1;
     exp_days_ahead := 1;
     mode := "DUMMY";
     take_profit_pct := 1 # 10;
     partial_sell_pct := 9 # 10;
     stop_loss_pct := 1 # 10;
     eod_time := Ok ((15 * 60 + 50) * ns_per_minute);
     ib_host := "127.0.0.1";
     ib_port := 7497;
     ib_client_id := 1 |}.

Definition with_budget (C : Config) (b : Q) : Config :=
  {| symbols := symbols C; position_usd := b;
     ignore_minutes := ignore_minutes C; otm_threshold := otm_threshold C;
     exp_days_ahead := exp_days_ahead C; mode := mode C;
     take_profit_pct := take_profit_pct C;
     partial_sell_pct := partial_sell_pct C;
     stop_loss_pct := stop_loss_pct C; eod_time := eod_time C;
     ib_host := ib_host C; ib_port := ib_port C;
     ib_client_id := ib_client_id C |}.


Definition with_ignore (C : Config) (m : Z) : Config :=
  {| symbols := symbols C; position_usd := position_usd C;
     ignore_minutes := m; otm_threshold := otm_threshold C;
     exp_days_ahead := exp_days_ahead C; mode := mode C;
     take_profit_pct := take_profit_pct C;
     partial_sell_pct := partial_sell_pct C;
     stop_loss_pct := stop_loss_pct C; eod_time := eod_time C;
     ib_host := ib_host C; ib_port := ib_port C;
     ib_client_id := ib_client_id C |}.

Definition with_mode (C : Config) (m : string) (syms : list string) : Config :=
  {| symbols := syms; position_usd := position_usd C;
     ignore_minutes := ignore_minutes C; otm_threshold := otm_threshold C;
     exp_days_ahead := exp_days_ahead C; mode := m;
     take_profit_pct := take_profit_pct C;
     partial_sell_pct := partial_sell_pct C;
     stop_loss_pct := stop_loss_pct C; eod_time := eod_time C;
     ib_host := ib_host C; ib_port := ib_port C;
     ib_client_id := ib_client_id C |}.

(** The scenario with no warm-up window. *)
Definition scenario_config : Config := with_ignore default_config 0.

(** Highs and lows at the body of each candle. *)
Definition tight_scenario : DataFrame :=
  scenario_bars 401 400 401 399 (3996 # 10) (3995 # 10) (3997 # 10) (3996 # 10).

(** Highs and lows a little away from the bodies. *)
Definition wide_scenario : DataFrame :=
  scenario_bars 402 399 402 398 400 399 400 399.

(** Three rising five-minute candles after a flat one; the default
    15-minute window drops the first three rows. *)
Definition rising_series : DataFrame :=
  [ {| ts := at_hm 9 30; open := 100; high := 100; low := 100; close := 100 |};
    {| ts := at_hm 9 35; open := 100; high := 102; low := 100; close := 101 |};
    {| ts := at_hm 9 40; open := 101; high := 103; low := 101; close := 102 |};
    {| ts := at_hm 9 45; open := 102; high := 104; low := 101; close := 103 |};
    {| ts := at_hm 9 50; open := 103; high := 106; low := 103; close := 105 |};
    {| ts := at_hm 9 55; open := 105; high := 105; low := 98; close := 99 |} ].

(** A live configuration over two symbols. *)
Definition live_config : Config :=
  with_mode default_config "LIVE" ["SPY"%string; "QQQ"%string].

(** A clock stopped at 16:00 of day 0. *)
Definition four_pm : DateTime := {| dt_date := 0; dt_tod := at_hm 16 0 |}.

(** A broker that accepts the connection and then fails every request. *)
Definition failing_world : World :=
  {| w_now := fun _ _ => four_pm;
     w_randn := fun _ _ => 0%Q;
     w_connect := fun _ => Ok tt;
     w_hist := fun _ _ => Raise (BrokerError 162);
     w_placeOrder := fun _ _ _ => Raise (BrokerError 201);
     w_sleep := fun _ => Ok tt;
     w_avgFillPrice := fun _ => 0%Q;
     w_openOrders := fun _ => Raise (BrokerError 504);
     w_cancelOrder := fun _ _ => Raise (BrokerError 504);
     w_positions := fun _ => Raise (BrokerError 504);
     w_disconnect := fun _ => Raise (BrokerError 504) |}.

(** A broker that serves [rising_series] for every symbol, fills at 5 and
    has nothing open at the end of the day; the synthetic noise falls by
    3/2 on every step. *)
Definition calm_world : World :=
  {| w_now := fun _ _ => four_pm;
     w_randn := fun _ _ => (-3 # 2)%Q;
     w_connect := fun _ => Ok tt;
     w_hist := fun _ _ => Ok rising_series;
     w_placeOrder := fun _ _ _ => Ok tt;
     w_sleep := fun _ => Ok tt;
     w_avgFillPrice := fun _ => 5%Q;
     w_openOrders := fun _ => Ok [];
     w_cancelOrder := fun _ _ => Ok tt;
     w_positions := fun _ => Ok [];
     w_disconnect := fun _ => Ok tt |}.

(** A contract to place orders on. *)
Definition sample_contract : Contract :=
  {| c_symbol := "SPY"; c_expiry := 1; c_strike := 99; c_right := CALL;
     c_exchange := "SMART" |}.

(* ------------------------------------------------------------------ *)
(** ** Further vocabulary *)

(** Requests for historical bars. *)
Definition is_hist_request (e : event) : bool :=
  match e with
  | IB_reqHistoricalData _ => true
  | _ => false
  end.

Definition no_hist_request (e : event) : Prop := is_hist_request e = false.

Definition is_placeOrder (e : event) : bool :=
  match e with
  | IB_placeOrder _ _ => true
  | _ => false
  end.

Definition no_placeOrder (e : event) : Prop := is_placeOrder e = false.
Definition not_disconnect (e : event) : Prop := e <> IB_disconnect.

(** The change of position an order asks for: bought quantities count up,
    sold ones down. *)
Definition signed_quantity (o : Order) : Z :=
  match action o with
  | BUY => totalQuantity o
  | SELL => - totalQuantity o
  end.

(** The market order [eod_cleanup] builds for an open position. *)
Definition closing_order (pos : Position) : Order :=
  MarketOrder (if Qgtb (p_position pos) 0 then SELL else BUY)
              (Z.abs (py_int (p_position pos))).

(** The requests of the second loop of [eod_cleanup]: one closing order per
    position that is not zero. *)
Definition closing_requests (positions : list Position) : list event :=
  flat_map (fun pos =>
              if truthy (p_position pos)
              then [IB_placeOrder (p_contract pos) (closing_order pos)]
              else [])
           positions.

(** A row of the synthetic frame: flat, with high and low one unit away. *)
Definition synthetic_row (b : Bar) : Prop :=
  open b = close b /\ high b = (close b + 1)%Q /\ low b = (close b - 1)%Q.


Definition with_otm (C : Config) (t : Q) : Config :=
  {| symbols := symbols C; position_usd := position_usd C;
     ignore_minutes := ignore_minutes C; otm_threshold := t;
     exp_days_ahead := exp_days_ahead C; mode := mode C;
     take_profit_pct := take_profit_pct C;
     partial_sell_pct := partial_sell_pct C;
     stop_loss_pct := stop_loss_pct C; eod_time := eod_time C;
     ib_host := ib_host C; ib_port := ib_port C;
     ib_client_id := ib_client_id C |}.

Definition with_eod_time (C : Config) (t : result Z) : Config :=
  {| symbols := symbols C; position_usd := position_usd C;
     ignore_minutes := ignore_minutes C; otm_threshold := otm_threshold C;
     exp_days_ahead := exp_days_ahead C; mode := mode C;
     take_profit_pct := take_profit_pct C;
     partial_sell_pct := partial_sell_pct C;
     stop_loss_pct := stop_loss_pct C; eod_time := t;
     ib_host := ib_host C; ib_port := ib_port C;
     ib_client_id := ib_client_id C |}.

(** A broker that refuses the connection. *)
Definition offline_world : World :=
  {| w_now := fun _ _ => four_pm;
     w_randn := fun _ _ => 0%Q;
     w_connect := fun _ => Raise (BrokerError 502);
     w_hist := fun _ _ => Raise (BrokerError 504);
     w_placeOrder := fun _ _ _ => Raise (BrokerError 504);
     w_sleep := fun _ => Ok tt;
     w_avgFillPrice := fun _ => 0%Q;
     w_openOrders := fun _ => Raise (BrokerError 504);
     w_cancelOrder := fun _ _ => Raise (BrokerError 504);
     w_positions := fun _ => Raise (BrokerError 504);
     w_disconnect := fun _ => Raise (BrokerError 504) |}.

(** A broker with two working orders and three positions at the close: long
    two contracts, flat, short three. *)
Definition working_order : Order := with_oca (LimitOrder SELL 9 110) 155000 2.

Definition closing_world : World :=
  {| w_now := fun _ _ => four_pm;
     w_randn := fun _ _ => 0%Q;
     w_connect := fun _ => Ok tt;
     w_hist := fun _ _ => Ok rising_series;
     w_placeOrder := fun _ _ _ => Ok tt;
     w_sleep := fun _ => Ok tt;
     w_avgFillPrice := fun _ => 5%Q;
     w_openOrders := fun _ => Ok [working_order; MarketOrder BUY 1];
     w_cancelOrder := fun _ _ => Ok tt;
     w_positions := fun _ =>
       Ok [ {| p_contract := sample_contract; p_position := 2 |};
            {| p_contract := sample_contract; p_position := 0 |};
            {| p_contract := sample_contract; p_position := -3 |} ];
     w_disconnect := fun _ => Ok tt |}.

(** [closing_world] with every cancellation refused. *)
Definition cancel_failing_world : World :=
  {| w_now := w_now closing_world;
     w_randn := w_randn closing_world;
     w_connect := w_connect closing_world;
     w_hist := w_hist closing_world;
     w_placeOrder := w_placeOrder closing_world;
     w_sleep := w_sleep closing_world;
     w_avgFillPrice := w_avgFillPrice closing_world;
     w_openOrders := w_openOrders closing_world;
     w_cancelOrder := fun _ _ => Raise (BrokerError 10147);
     w_positions := w_positions closing_world;
     w_disconnect := w_disconnect closing_world |}.

(** A clock stopped at 10:00 of day 0, before the cutoff. *)
Definition ten_am : DateTime := {| dt_date := 0; dt_tod := at_hm 10 0 |}.

Definition morning_world : World :=
  {| w_now := fun _ _ => ten_am;
     w_randn := fun _ _ => 0%Q;
     w_connect := fun _ => Ok tt;
     w_hist := fun _ _ => Ok rising_series;
     w_placeOrder := fun _ _ _ => Ok tt;
     w_sleep := fun _ => Ok tt;
     w_avgFillPrice := fun _ => 5%Q;
     w_openOrders := fun _ => Ok [];
     w_cancelOrder := fun _ _ => Ok tt;
     w_positions := fun _ => Ok [];
     w_disconnect := fun _ => Ok tt |}.

(* ================================================================== *)
(** * Properties *)

(* ------------------------------------------------------------------ *)
(** ** Float comparisons and [int] *)

Lemma Qgtb_true (a b : Q) : Qgtb a b = true <-> (b < a)%Q.
Proof.
  unfold Qgtb. rewrite negb_true_iff. split.
  - intro H. apply Qnot_le_lt. intro Hle.
    apply Qle_bool_iff in Hle. congruence.
  - intro H. destruct (Qle_bool a b) eqn:E; [|reflexivity].
    apply Qle_bool_iff in E. exfalso. exact (Qlt_not_le _ _ H E).
Qed.

Lemma Qgtb_false (a b : Q) : Qgtb a b = false <-> (a <= b)%Q.
Proof.
  unfold Qgtb. rewrite negb_false_iff. apply Qle_bool_iff.
Qed.

Lemma Qltb_true (a b : Q) : Qltb a b = true <-> (a < b)%Q.
Proof. exact (Qgtb_true b a). Qed.

Lemma Qltb_false (a b : Q) : Qltb a b = false <-> (b <= a)%Q.
Proof. exact (Qgtb_false b a). Qed.

Lemma py_int_nonneg (x : Q) : (0 <= x)%Q -> py_int x = Qfloor x.
Proof.
  intro H. unfold py_int.
  apply Qle_bool_iff in H. now rewrite H.
Qed.

Lemma py_int_neg (x : Q) : (x < 0)%Q -> py_int x = Qceiling x.
Proof.
  intro H. unfold py_int.
  destruct (Qle_bool 0 x) eqn:E; [|reflexivity].
  apply Qle_bool_iff in E. exfalso. exact (Qlt_not_le _ _ H E).
Qed.

Lemma py_int_comp (x y : Q) : (x == y)%Q -> py_int x = py_int y.
Proof.
  intro H. unfold py_int.
  assert (Hb : Qle_bool 0 x = Qle_bool 0 y).
  { destruct (Qle_bool 0 x) eqn:Ex, (Qle_bool 0 y) eqn:Ey; try reflexivity.
    - apply Qle_bool_iff in Ex. rewrite H in Ex.
      apply Qle_bool_iff in Ex. congruence.
    - apply Qle_bool_iff in Ey. rewrite <- H in Ey.
      apply Qle_bool_iff in Ey. congruence. }
  rewrite Hb. destruct (Qle_bool 0 y).
  - now apply Qfloor_comp.
  - now apply Qceiling_comp.
Qed.

Lemma size_pos (C : Config) (p : Q) :
  (0 < p)%Q -> size C p = py_int (position_usd C / (p * 100)).
Proof.
  intro Hp. unfold size, truthy.
  assert (E1 : Qeq_bool p 0 = false).
  { destruct (Qeq_bool p 0) eqn:E; [|reflexivity].
    apply Qeq_bool_iff in E. rewrite E in Hp.
    exfalso. exact (Qlt_irrefl _ Hp). }
  assert (E2 : Qgtb p 0 = true) by now apply Qgtb_true.
  now rewrite E1, E2.
Qed.

Lemma size_nonpos (C : Config) (p : Q) : (p <= 0)%Q -> size C p = 0.
Proof.
  intro Hp. unfold size.
  apply Qgtb_false in Hp. rewrite Hp.
  now rewrite andb_false_r.
Qed.



(* ------------------------------------------------------------------ *)
(** ** Position sizer *)







(* ------------------------------------------------------------------ *)
(** ** Trigger detector *)

Lemma dir_of_up (b : Bar) : dir_of b = up <-> candle_up b.
Proof.
  unfold dir_of, candle_up.
  destruct (Qgtb (close b) (open b)) eqn:E.
  - apply Qgtb_true in E. tauto.
  - apply Qgtb_false in E. split; [discriminate|].
    intro H. exfalso. exact (Qlt_not_le _ _ H E).
Qed.

Lemma dir_of_down (b : Bar) : dir_of b = down <-> ~ candle_up b.
Proof.
  rewrite <- dir_of_up. destruct (dir_of b); split; congruence.
Qed.

Lemma direction_eqb_eq (a b : direction) : direction_eqb a b = true <-> a = b.
Proof. destruct a, b; simpl; split; congruence. Qed.

Lemma fires_breakout (prev curr : Bar) :
  fires prev curr = true <-> breakout prev curr.
Proof.
  unfold fires, breakout.
  pose proof (dir_of_up prev) as Hp. pose proof (dir_of_up curr) as Hc.
  destruct (dir_of prev), (dir_of curr); simpl;
    rewrite ?orb_false_r, ?Qgtb_true, ?Qltb_true.
  - assert (candle_up prev) by now apply Hp.
    assert (candle_up curr) by now apply Hc. tauto.
  - assert (candle_up prev) by now apply Hp.
    assert (~ candle_up curr) by (intro H0; apply Hc in H0; discriminate).
    split; [discriminate | tauto].
  - assert (~ candle_up prev) by (intro H0; apply Hp in H0; discriminate).
    assert (candle_up curr) by now apply Hc.
    split; [discriminate | tauto].
  - assert (~ candle_up prev) by (intro H0; apply Hp in H0; discriminate).
    assert (~ candle_up curr) by (intro H0; apply Hc in H0; discriminate).
    tauto.
Qed.

Lemma fires_same_dir (prev curr : Bar) :
  fires prev curr = true -> dir_of prev = dir_of curr.
Proof.
  unfold fires. rewrite andb_true_iff, direction_eqb_eq. tauto.
Qed.

Lemma sorted_NoDup (l : list Z) : StronglySorted Z.lt l -> NoDup l.
Proof.
  induction 1 as [|a l Hs IH Hall]; constructor; [|exact IH].
  intro Hin. rewrite Forall_forall in Hall.
  specialize (Hall a Hin). lia.
Qed.

Lemma NoDup_ts_filter (f : Bar -> bool) (df : DataFrame) :
  NoDup (map ts df) -> NoDup (map ts (filter f df)).
Proof.
  induction df as [|b df IH]; simpl; intro H; [constructor|].
  inversion H as [|? ? Hnotin Hnd]; subst.
  destruct (f b); simpl; [|now apply IH].
  constructor; [|now apply IH].
  intro Hin. apply Hnotin.
  apply in_map_iff in Hin. destruct Hin as [x [Hx Hin]].
  apply filter_In in Hin. apply in_map_iff. exists x. tauto.
Qed.

Lemma filter_label_absent (df : DataFrame) (label : Z) :
  ~ In label (map ts df) -> filter (fun x => ts x =? label) df = [].
Proof.
  induction df as [|c df IH]; simpl; intro Hnotin; [reflexivity|].
  destruct (ts c =? label) eqn:E.
  - apply Z.eqb_eq in E. exfalso. apply Hnotin. now left.
  - apply IH. intro H. apply Hnotin. now right.
Qed.

(** With unique labels, [df.loc[label]] of a row's own label is that row. *)
Lemma loc_unique (df : DataFrame) (b : Bar) :
  NoDup (map ts df) -> In b df -> loc df (ts b) = Row b.
Proof.
  intros Hnd Hin. unfold loc.
  assert (E : filter (fun x => ts x =? ts b) df = [b]).
  { induction df as [|a df IH]; [destruct Hin|].
    simpl in Hnd. inversion Hnd as [|? ? Hnotin Hnd']; subst.
    simpl. destruct Hin as [-> | Hin].
    - rewrite Z.eqb_refl. f_equal. now apply filter_label_absent.
    - destruct (ts a =? ts b) eqn:E.
      + apply Z.eqb_eq in E. exfalso. apply Hnotin.
        rewrite E. now apply in_map.
      + now apply IH. }
  now rewrite E.
Qed.

Lemma scan_unique (df2 : DataFrame) :
  NoDup (map ts df2) ->
  forall rest prev, incl rest df2 ->
    scan df2 (Row prev) rest = Ok (scan_rows prev rest).
Proof.
  intros Hnd. induction rest as [|curr rest IH]; intros prev Hincl.
  - reflexivity.
  - simpl. destruct (fires prev curr); [reflexivity|].
    rewrite loc_unique.
    + apply IH. intros x Hx. apply Hincl. now right.
    + exact Hnd.
    + apply Hincl. now left.
Qed.

Lemma adjacent_nil (j : nat) (p c : Bar) : ~ adjacent [] j p c.
Proof. intros [H _]. destruct j; discriminate. Qed.

Lemma adjacent_single (b : Bar) (j : nat) (p c : Bar) : ~ adjacent [b] j p c.
Proof. intros [_ H]. destruct j; discriminate. Qed.

Lemma adjacent_head (a b : Bar) (l : list Bar) (p c : Bar) :
  adjacent (a :: b :: l) 0 p c -> p = a /\ c = b.
Proof. intros [H1 H2]. simpl in *. split; congruence. Qed.

(** [scan_rows] finds the first pair of neighbouring rows on which the test
    of the loop holds, or none when there is no such pair. *)
Lemma scan_rows_first (rest : list Bar) :
  forall prev,
    (exists i p c,
        adjacent (prev :: rest) i p c /\ fires p c = true /\
        (forall j p' c', (j < i)%nat -> adjacent (prev :: rest) j p' c' ->
                         fires p' c' = false) /\
        scan_rows prev rest = Some (ts c, dir_of c)) \/
    ((forall j p c, adjacent (prev :: rest) j p c -> fires p c = false) /\
     scan_rows prev rest = None).
Proof.
  induction rest as [|curr rest IH]; intro prev.
  - right. split; [|reflexivity].
    intros j p c H. exfalso. exact (adjacent_single _ _ _ _ H).
  - simpl. destruct (fires prev curr) eqn:E.
    + left. exists 0%nat, prev, curr. repeat split.
      * exact E.
      * intros j p' c' Hj. lia.
      * now rewrite (fires_same_dir _ _ E).
    + destruct (IH curr) as [[i [p [c [Hadj [Hf [Hbefore Hres]]]]]] | [Hnone Hres]].
      * left. exists (S i), p, c. repeat split; try assumption.
        -- apply Hadj.
        -- apply Hadj.
        -- intros j p' c' Hj Hadj'. destruct j as [|j].
           ++ apply adjacent_head in Hadj'. destruct Hadj' as [-> ->]. exact E.
           ++ apply (Hbefore j); [lia | exact Hadj'].
      * right. split; [|exact Hres].
        intros j p c Hadj. destruct j as [|j].
        -- apply adjacent_head in Hadj. destruct Hadj as [-> ->]. exact E.
        -- apply (Hnone j). exact Hadj.
Qed.

(** On a non-empty frame with unique labels [find_trigger] returns, and what
    it returns is the row-only scan of the frame left by the warm-up filter. *)
Lemma find_trigger_rows (C : Config) (b0 : Bar) (rest : list Bar) :
  NoDup (map ts (b0 :: rest)) ->
  find_trigger C (b0 :: rest) =
  Ok (match after_warmup C (ts b0) (b0 :: rest) with
      | [] => None
      | first :: others => scan_rows first others
      end).
Proof.
  intro Hnd. unfold find_trigger.
  pose proof (NoDup_ts_filter
                (fun b => ts b0 + Timedelta_minutes (ignore_minutes C) <=? ts b)
                _ Hnd) as Hnd2.
  fold (after_warmup C (ts b0) (b0 :: rest)) in Hnd2.
  destruct (after_warmup C (ts b0) (b0 :: rest)) as [|first others] eqn:E;
    [reflexivity|].
  apply scan_unique; [exact Hnd2|].
  intros x Hx. now right.
Qed.

(** On a non-empty bar series [find_trigger] returns the timestamp and
    direction of the first candle, among those left by the warm-up filter
    and from the second one on, that forms a breakout with the candle just
    before it; when there is none it returns no-trigger. *)
Lemma find_trigger_first_breakout (C : Config) (b0 : Bar) (rest : list Bar) :
  bar_series (b0 :: rest) ->
  let l := after_warmup C (ts b0) (b0 :: rest) in
  (exists i prev curr d,
      adjacent l i prev curr /\ breakout prev curr /\
      (forall j p c, (j < i)%nat -> adjacent l j p c -> ~ breakout p c) /\
      (d = up <-> candle_up curr) /\
      find_trigger C (b0 :: rest) = Ok (Some (ts curr, d))) \/
  ((forall j p c, adjacent l j p c -> ~ breakout p c) /\
   find_trigger C (b0 :: rest) = Ok None).
Proof.
  intros Hsorted l.
  rewrite find_trigger_rows by (apply sorted_NoDup; exact Hsorted).
  fold l. destruct l as [|first others].
  - right. split; [|reflexivity].
    intros j p c H. exfalso. exact (adjacent_nil _ _ _ H).
  - destruct (scan_rows_first others first)
      as [[i [p [c [Hadj [Hf [Hbefore Hres]]]]]] | [Hnone Hres]].
    + left. exists i, p, c, (dir_of c). repeat split.
      * apply Hadj.
      * apply Hadj.
      * now apply fires_breakout.
      * intros j p' c' Hj Hadj' Hb. apply fires_breakout in Hb.
        rewrite (Hbefore j p' c' Hj Hadj') in Hb. discriminate.
      * apply dir_of_up.
      * apply dir_of_up.
      * now rewrite Hres.
    + right. split; [|now rewrite Hres].
      intros j p c Hadj Hb. apply fires_breakout in Hb.
      rewrite (Hnone j p c Hadj) in Hb. discriminate.
Qed.

(** C1: what [find_trigger] does on every bar series.  On the empty series,
    where no candle qualifies, it raises [IndexError] instead of returning
    no-trigger; on a series with a first row it returns the first breakout
    candle after the warm-up filter, with its direction, and no-trigger when
    there is none. *)
Theorem find_trigger_behaviour (C : Config) (df : DataFrame) :
  bar_series df ->
  match df with
  | [] => find_trigger C df = Raise IndexError
  | b0 :: _ =>
      let l := after_warmup C (ts b0) df in
      (exists i prev curr d,
          adjacent l i prev curr /\ breakout prev curr /\
          (forall j p c, (j < i)%nat -> adjacent l j p c -> ~ breakout p c) /\
          (d = up <-> candle_up curr) /\
          find_trigger C df = Ok (Some (ts curr, d))) \/
      ((forall j p c, adjacent l j p c -> ~ breakout p c) /\
       find_trigger C df = Ok None)
  end.
Proof.
  intro Hs. destruct df as [|b0 rest].
  - reflexivity.
  - now apply find_trigger_first_breakout.
Qed.

Example rising_series_trigger :
  find_trigger default_config rising_series = Ok (Some (at_hm 9 50, up)).
Proof. reflexivity. Qed.

Lemma rising_series_sorted : bar_series rising_series.
Proof.
  unfold bar_series. simpl.
  repeat (constructor; [|repeat (constructor; try reflexivity)]).
  constructor.
Qed.

Lemma find_trigger_behaviour_witness :
  let l := after_warmup default_config (at_hm 9 30) rising_series in
  (exists i prev curr d,
      adjacent l i prev curr /\ breakout prev curr /\
      (forall j p c, (j < i)%nat -> adjacent l j p c -> ~ breakout p c) /\
      (d = up <-> candle_up curr) /\
      find_trigger default_config rising_series = Ok (Some (ts curr, d))) \/
  ((forall j p c, adjacent l j p c -> ~ breakout p c) /\
   find_trigger default_config rising_series = Ok None).
Proof.
  exact (find_trigger_behaviour default_config rising_series
                                rising_series_sorted).
Defined.

(** C6: on the completely empty frame [find_trigger] raises [IndexError],
    whatever the configuration: [df.index[0]] is evaluated before the
    [df2.empty] guard, so no-trigger is not returned there. *)
Theorem find_trigger_empty_raises (C : Config) :
  find_trigger C [] = Raise IndexError.
Proof. reflexivity. Qed.

(** The part of C6 the code does meet: a non-empty frame of which the
    warm-up filter leaves nothing gives no-trigger, without an exception. *)
Lemma find_trigger_all_warmup (C : Config) (b0 : Bar) (rest : list Bar) :
  after_warmup C (ts b0) (b0 :: rest) = [] ->
  find_trigger C (b0 :: rest) = Ok None.
Proof.
  intro H. unfold find_trigger. now rewrite H.
Qed.

Example single_bar_no_trigger :
  find_trigger default_config
    [ {| ts := at_hm 9 30; open := 100; high := 101; low := 99;
         close := 100 |} ] = Ok None.
Proof. reflexivity. Qed.

(** Outside the data model: a label that occurs twice makes [df2.loc] give
    a sub-frame, and the next comparison raises. *)
Example duplicate_labels_raise :
  let b := {| ts := at_hm 9 30; open := 1; high := 2; low := 1; close := 2 |} in
  find_trigger scenario_config [b; b; b] = Raise ValueError.
Proof. reflexivity. Qed.

(* ------------------------------------------------------------------ *)
(** ** The four-bar scenario *)

Lemma scenario_NoDup (h0 l0 h1 l1 h2 l2 h3 l3 : Q) :
  NoDup (map ts (scenario_bars h0 l0 h1 l1 h2 l2 h3 l3)).
Proof.
  apply sorted_NoDup. simpl.
  repeat (constructor; [|repeat (constructor; try reflexivity)]).
  constructor.
Qed.

(** With no warm-up window the scenario comes down to the test on the last
    two candles, both up: whether the 09:33 close is above the 09:32 high. *)
Lemma scenario_find_trigger (h0 l0 h1 l1 h2 l2 h3 l3 : Q) :
  find_trigger scenario_config (scenario_bars h0 l0 h1 l1 h2 l2 h3 l3) =
  Ok (if Qgtb (3997 # 10) h2 then Some (at_hm 9 33, up) else None).
Proof.
  unfold scenario_bars.
  rewrite find_trigger_rows by apply scenario_NoDup.
  change (after_warmup scenario_config _ _)
    with (scenario_bars h0 l0 h1 l1 h2 l2 h3 l3).
  unfold scenario_bars, scan_rows.
  match goal with
  | |- context [fires ?a ?b] =>
      change (fires a b) with false; cbv iota
  end.
  match goal with
  | |- context [fires ?a ?b] =>
      change (fires a b) with false; cbv iota
  end.
  match goal with
  | |- context [fires ?a ?b] =>
      change (fires a b) with (Qgtb (3997 # 10) h2 || false)
  end.
  rewrite orb_false_r.
  now destruct (Qgtb (3997 # 10) h2).
Qed.

(** C7, as amended: in the four-bar scenario with consistent highs and lows
    [find_trigger] gives no-trigger exactly when the 09:32 high is at least
    399.7, the 09:33 close; below that it fires at 09:33 with direction up. *)
Theorem scenario_outcome (h0 l0 h1 l1 h2 l2 h3 l3 : Q) :
  Forall consistent (scenario_bars h0 l0 h1 l1 h2 l2 h3 l3) ->
  let r := find_trigger scenario_config
             (scenario_bars h0 l0 h1 l1 h2 l2 h3 l3) in
  ((3997 # 10 <= h2)%Q -> r = Ok None) /\
  ((h2 < 3997 # 10)%Q -> r = Ok (Some (at_hm 9 33, up))).
Proof.
  intros _ r. unfold r. rewrite scenario_find_trigger.
  destruct (Qgtb (3997 # 10) h2) eqn:E.
  - apply Qgtb_true in E. split; [|reflexivity].
    intro H. exfalso. exact (Qlt_not_le _ _ E H).
  - apply Qgtb_false in E. split; [reflexivity|].
    intro H. exfalso. exact (Qlt_not_le _ _ H E).
Qed.

Lemma tight_scenario_consistent : Forall consistent tight_scenario.
Proof.
  unfold tight_scenario, scenario_bars.
  repeat (constructor; [repeat split; vm_compute; discriminate|]).
  constructor.
Qed.

Lemma wide_scenario_consistent : Forall consistent wide_scenario.
Proof.
  unfold wide_scenario, scenario_bars.
  repeat (constructor; [repeat split; vm_compute; discriminate|]).
  constructor.
Qed.

Lemma scenario_outcome_witness :
  find_trigger scenario_config tight_scenario = Ok (Some (at_hm 9 33, up)) /\
  find_trigger scenario_config wide_scenario = Ok None.
Proof.
  split.
  - apply (proj2 (scenario_outcome 401 400 401 399 (3996 # 10) (3995 # 10)
                                   (3997 # 10) (3996 # 10)
                                   tight_scenario_consistent)).
    reflexivity.
  - apply (proj1 (scenario_outcome 402 399 402 398 400 399 400 399
                                   wide_scenario_consistent)).
    vm_compute. discriminate.
Defined.

(** C7 as stated fails when each high and low sits at the body of its
    candle: the 09:32 and 09:33 candles are both up and 399.7 is above the
    09:32 high 399.6, so a trigger fires at 09:33. *)
Lemma scenario_tight_fires :
  Forall consistent tight_scenario /\
  find_trigger scenario_config tight_scenario = Ok (Some (at_hm 9 33, up)) /\
  find_trigger scenario_config tight_scenario <> Ok None.
Proof.
  split; [exact tight_scenario_consistent|].
  split; [reflexivity | discriminate].
Qed.

(* ------------------------------------------------------------------ *)
(** ** Reasoning about computations *)

Lemma run_bind {A B : Type} (m : M A) (f : A -> M B) (h : history) :
  bind m f h =
  match outcome m h with
  | Ok a => (outcome (f a) (h ++ events m h),
             events m h ++ events (f a) (h ++ events m h))
  | Raise e => (Raise e, events m h)
  end.
Proof.
  unfold bind, outcome, events.
  destruct (m h) as [[a|e] out]; simpl; [|reflexivity].
  now destruct (f a (h ++ out)).
Qed.

Lemma run_try_except {A : Type} (body : M A) (handler : exn -> M A)
      (h : history) :
  try_except body handler h =
  match outcome body h with
  | Ok a => (Ok a, events body h)
  | Raise e => (outcome (handler e) (h ++ events body h),
                events body h ++ events (handler e) (h ++ events body h))
  end.
Proof.
  unfold try_except, outcome, events.
  destruct (body h) as [[a|e] out]; simpl; [reflexivity|].
  now destruct (handler e (h ++ out)).
Qed.

Lemma events_bind {A B : Type} (m : M A) (f : A -> M B) (h : history) :
  events (bind m f) h =
  events m h ++
  match outcome m h with
  | Ok a => events (f a) (h ++ events m h)
  | Raise _ => []
  end.
Proof.
  unfold events at 1. rewrite run_bind.
  destruct (outcome m h); simpl; [reflexivity | now rewrite app_nil_r].
Qed.

Lemma outcome_bind {A B : Type} (m : M A) (f : A -> M B) (h : history) :
  outcome (bind m f) h =
  match outcome m h with
  | Ok a => outcome (f a) (h ++ events m h)
  | Raise e => Raise e
  end.
Proof.
  unfold outcome at 1. rewrite run_bind.
  now destruct (outcome m h).
Qed.

Lemma bind_ext {A B : Type} (m : M A) (f g : A -> M B) (h : history) :
  (forall a h', f a h' = g a h') -> bind m f h = bind m g h.
Proof.
  intro H. unfold bind.
  destruct (m h) as [[a|e] out]; [|reflexivity].
  now rewrite H.
Qed.

Lemma run_lift_ok {A B : Type} (a : A) (f : A -> M B) (h : history) :
  bind (lift (Ok a)) f h = f a h.
Proof.
  unfold bind, lift. rewrite app_nil_r.
  now destruct (f a h).
Qed.

Lemma outcome_emit (e : event) (h : history) : outcome (emit e) h = Ok tt.
Proof. reflexivity. Qed.

Lemma events_emit (e : event) (h : history) : events (emit e) h = [e].
Proof. reflexivity. Qed.

Lemma outcome_ask {A : Type} (e : event) (answer : history -> result A)
      (h : history) :
  outcome (ask e answer) h = answer h.
Proof. reflexivity. Qed.

Lemma events_ask {A : Type} (e : event) (answer : history -> result A)
      (h : history) :
  events (ask e answer) h = [e].
Proof. reflexivity. Qed.

Lemma outcome_peek {A : Type} (read : history -> A) (h : history) :
  outcome (peek read) h = Ok (read h).
Proof. reflexivity. Qed.

Lemma events_peek {A : Type} (read : history -> A) (h : history) :
  events (peek read) h = [].
Proof. reflexivity. Qed.

Lemma outcome_ret {A : Type} (a : A) (h : history) : outcome (ret a) h = Ok a.
Proof. reflexivity. Qed.

Lemma events_ret {A : Type} (a : A) (h : history) : events (ret a) h = [].
Proof. reflexivity. Qed.


Lemma outcome_log_print (l : level) (m : message) (h : history) :
  outcome (log_print l m) h = Ok tt.
Proof. reflexivity. Qed.

Lemma events_log_print (l : level) (m : message) (h : history) :
  events (log_print l m) h = [Log l m; Print m].
Proof. reflexivity. Qed.

Section EmitsOnly.

Variable P : event -> Prop.

Lemma emits_only_ret {A : Type} (a : A) : emits_only P (ret a).
Proof. intro h. constructor. Qed.

Lemma emits_only_lift {A : Type} (r : result A) : emits_only P (lift r).
Proof. intro h. constructor. Qed.

Lemma emits_only_peek {A : Type} (read : history -> A) :
  emits_only P (peek read).
Proof. intro h. constructor. Qed.

Lemma emits_only_emit (e : event) : P e -> emits_only P (emit e).
Proof. intros He h. now repeat constructor. Qed.

Lemma emits_only_ask {A : Type} (e : event) (answer : history -> result A) :
  P e -> emits_only P (ask e answer).
Proof. intros He h. now repeat constructor. Qed.

Lemma emits_only_bind {A B : Type} (m : M A) (f : A -> M B) :
  emits_only P m -> (forall a, emits_only P (f a)) ->
  emits_only P (bind m f).
Proof.
  intros Hm Hf h. rewrite events_bind. apply Forall_app. split.
  - apply Hm.
  - destruct (outcome m h); [apply Hf | constructor].
Qed.

Lemma emits_only_try_except {A : Type} (body : M A) (handler : exn -> M A) :
  emits_only P body -> (forall e, emits_only P (handler e)) ->
  emits_only P (try_except body handler).
Proof.
  intros Hb Hh h. unfold events. rewrite run_try_except.
  destruct (outcome body h); simpl.
  - apply Hb.
  - apply Forall_app. split; [apply Hb | apply Hh].
Qed.

Lemma emits_only_for_each {A : Type} (body : A -> M unit) (l : list A) :
  (forall a, emits_only P (body a)) -> emits_only P (for_each body l).
Proof.
  intro Hb. induction l as [|x l IH]; simpl.
  - apply emits_only_ret.
  - apply emits_only_bind; [apply Hb | intros _; exact IH].
Qed.

Lemma emits_only_log_print (l : level) (m : message) :
  P (Log l m) -> P (Print m) -> emits_only P (log_print l m).
Proof.
  intros Hl Hp. unfold log_print.
  apply emits_only_bind; [|intros _]; now apply emits_only_emit.
Qed.

End EmitsOnly.

(* ------------------------------------------------------------------ *)
(** ** Option selector *)

Lemma select_option_run (W : World) (C : Config) (sym : string)
      (d : direction) (bars : DataFrame) (h : history) (p : Q) :
  reference_price bars = Ok p ->
  select_option W C sym d bars h =
  (Ok {| c_symbol := sym;
         c_expiry := dt_date (w_now W (h ++ [Call (F_select_option sym)]) true)
                     + exp_days_ahead C;
         c_strike := select_strike C d p;
         c_right := select_right d;
         c_exchange := "SMART" |},
   [Call (F_select_option sym); Datetime_now true]).
Proof.
  intro Hp. unfold select_option, bind, emit, lift, ask, ret.
  rewrite Hp. simpl. now rewrite app_nil_r.
Qed.

Lemma py_int_pos (p : Q) : (0 < p)%Q -> py_int p = Qfloor p.
Proof. intro H. apply py_int_nonneg. now apply Qlt_le_weak. Qed.

(** C5: for a positive reference price the contract [select_option] builds
    has right CALL for up and PUT for down; its strike is the candidate
    (ceiling for up, floor for down) when the candidate is within the OTM
    threshold of the price, and floor + 1 (up) or floor - 1 (down) when it
    is farther. *)
Theorem select_option_strike_rule (W : World) (C : Config) (sym : string)
        (d : direction) (bars : DataFrame) (h : history) (p : Q) :
  reference_price bars = Ok p -> (0 < p)%Q ->
  let candidate := match d with up => Qceiling p | down => Qfloor p end in
  let far := (otm_threshold C < Qabs (inject_Z candidate - p))%Q in
  exists c,
    outcome (select_option W C sym d bars) h = Ok c /\
    c_right c = match d with up => CALL | down => PUT end /\
    (far -> c_strike c = Qfloor p + match d with up => 1 | down => -1 end) /\
    (~ far -> c_strike c = candidate /\
              (Qabs (inject_Z (c_strike c) - p) <= otm_threshold C)%Q).
Proof.
  intros Hp Hpos candidate far.
  unfold outcome. rewrite (select_option_run W C sym d bars h p Hp).
  eexists. split; [reflexivity|]. simpl.
  split; [now destruct d|].
  unfold select_strike. fold candidate.
  destruct (Qgtb (Qabs (inject_Z candidate - p)) (otm_threshold C)) eqn:E.
  - apply Qgtb_true in E. split.
    + intros _. now rewrite py_int_pos.
    + intro Hn. exfalso. exact (Hn E).
  - apply Qgtb_false in E. split.
    + intro Hf. exfalso. exact (Qlt_not_le _ _ Hf E).
    + intros _. split; [reflexivity | exact E].
Qed.

Example strike_401_20_up :
  select_strike default_config up (40120 # 100) = 402.
Proof. reflexivity. Qed.

Lemma select_option_strike_rule_witness :
  exists c,
    outcome (select_option calm_world default_config "SPY" up rising_series)
            [] = Ok c /\
    c_right c = CALL /\
    ((otm_threshold default_config < Qabs (inject_Z (Qceiling 99) - 99))%Q ->
     c_strike c = Qfloor 99 + 1) /\
    (~ (otm_threshold default_config < Qabs (inject_Z (Qceiling 99) - 99))%Q ->
     c_strike c = Qceiling 99 /\
     (Qabs (inject_Z (c_strike c) - 99) <= otm_threshold default_config)%Q).
Proof.
  apply (select_option_strike_rule calm_world default_config "SPY" up
                                   rising_series [] 99).
  - reflexivity.
  - reflexivity.
Defined.

(* ------------------------------------------------------------------ *)
(** ** The reference price *)

Lemma iloc_last_app {A : Type} (l : list A) (x : A) :
  iloc_last (l ++ [x]) = Ok x.
Proof.
  induction l as [|a l IH]; [reflexivity|].
  simpl. destruct (l ++ [x]) eqn:E; [|exact IH].
  destruct l; discriminate.
Qed.

Lemma reference_price_last (bars : DataFrame) (b : Bar) :
  reference_price (bars ++ [b]) = Ok (close b).
Proof.
  unfold reference_price. rewrite map_app. apply iloc_last_app.
Qed.

Lemma Qgtb_comp (a a' b : Q) : (a == a')%Q -> Qgtb a b = Qgtb a' b.
Proof.
  intro H.
  destruct (Qgtb a b) eqn:E1, (Qgtb a' b) eqn:E2; try reflexivity.
  - apply Qgtb_true in E1. apply Qgtb_false in E2.
    rewrite H in E1. exfalso. exact (Qlt_not_le _ _ E1 E2).
  - apply Qgtb_false in E1. apply Qgtb_true in E2.
    rewrite H in E1. exfalso. exact (Qlt_not_le _ _ E2 E1).
Qed.

(** The sizer and the strike rule do not tell apart two representations of
    the same price. *)
Lemma size_comp (C : Config) (p p' : Q) :
  (p == p')%Q -> size C p = size C p'.
Proof.
  intro H. destruct (Qlt_le_dec 0 p) as [Hpos | Hneg].
  - assert (Hpos' : (0 < p')%Q) by now rewrite <- H.
    rewrite !size_pos by assumption.
    apply py_int_comp. now rewrite H.
  - assert (Hneg' : (p' <= 0)%Q) by now rewrite <- H.
    now rewrite !size_nonpos.
Qed.

Lemma select_strike_comp (C : Config) (d : direction) (p p' : Q) :
  (p == p')%Q -> select_strike C d p = select_strike C d p'.
Proof.
  intro H. unfold select_strike.
  assert (Hc : match d with up => Qceiling p | down => Qfloor p end =
               match d with up => Qceiling p' | down => Qfloor p' end).
  { destruct d; [now apply Qceiling_comp | now apply Qfloor_comp]. }
  rewrite Hc, (py_int_comp p p' H).
  set (k := match d with up => Qceiling p' | down => Qfloor p' end).
  rewrite (Qgtb_comp (Qabs (inject_Z k - p)) (Qabs (inject_Z k - p'))).
  - reflexivity.
  - now rewrite H.
Qed.

(** C10: whatever rows come before it, the last row [b] of the fetched
    frame gives the reference price: [select_option] builds the strike from
    [close b], and the steps after a trigger size the position from
    [close b] and pass that contract and quantity on; the trigger's own
    candle and timestamp enter only the log line.  Equal final closes give
    equal strikes and sizes. *)
Theorem final_close_is_reference (W : World) (C : Config) (sym : string)
        (d : direction) (t_time : Z) (bars : DataFrame) (b : Bar)
        (h : history) :
  let df := bars ++ [b] in
  reference_price df = Ok (close b) /\
  (exists c, outcome (select_option W C sym d df) h = Ok c /\
             c_strike c = select_strike C d (close b) /\
             c_right c = select_right d) /\
  trade W C sym df t_time d h =
    (log_print INFO (Msg_trigger sym t_time d) ;;
     contract <- select_option W C sym d df ;;
     if size C (close b) <? 1
     then log_print WARNING (Msg_qty_skip sym (size C (close b)))
     else place_orders W C contract (size C (close b))) h /\
  (forall b' : Bar, (close b == close b')%Q ->
     select_strike C d (close b) = select_strike C d (close b') /\
     size C (close b) = size C (close b')).
Proof.
  intro df. pose proof (reference_price_last bars b) as Href. fold df in Href.
  split; [exact Href|]. split; [|split].
  - eexists. unfold outcome.
    rewrite (select_option_run W C sym d df h (close b) Href).
    simpl. repeat split.
  - unfold trade.
    apply bind_ext. intros _ h1.
    apply bind_ext. intros contract h2.
    now rewrite Href, run_lift_ok.
  - intros b' Hb. split; [now apply select_strike_comp | now apply size_comp].
Qed.

Lemma final_close_is_reference_witness :
  reference_price rising_series = Ok 99%Q /\
  (exists c,
      outcome (select_option calm_world default_config "SPY" up rising_series)
              [] = Ok c /\
      c_strike c = 99 /\ c_right c = CALL) /\
  select_strike default_config up 99 = select_strike default_config up (198 # 2) /\
  size default_config 99 = size default_config (198 # 2).
Proof.
  destruct (final_close_is_reference
              calm_world default_config "SPY" up (at_hm 9 50)
              (firstn 5 rising_series)
              {| ts := at_hm 9 55; open := 105; high := 105; low := 98;
                 close := 99 |} [])
    as [Href [Hsel [_ Hcomp]]].
  split; [exact Href|]. split; [exact Hsel|].
  apply (Hcomp {| ts := 0; open := 0; high := 0; low := 0;
                  close := 198 # 2 |}).
  reflexivity.
Defined.

Example rising_series_reference :
  reference_price rising_series = Ok 99%Q /\
  find_trigger default_config rising_series = Ok (Some (at_hm 9 50, up)) /\
  select_strike default_config up 99 = 99 /\
  select_strike default_config up 105 = 105.
Proof. repeat split. Qed.

(* ------------------------------------------------------------------ *)
(** ** What each function emits *)

Ltac emits_tac :=
  repeat first
    [ apply emits_only_ret
    | apply emits_only_lift
    | apply emits_only_peek
    | apply emits_only_emit; reflexivity
    | apply emits_only_ask; reflexivity
    | apply emits_only_log_print; reflexivity
    | apply emits_only_bind; [|intro]
    | apply emits_only_for_each; intro
    | apply emits_only_try_except; [|intro]
    | match goal with
      | |- emits_only _ (if ?b then _ else _) => destruct b
      | |- emits_only _ (match ?x with _ => _ end) => destruct x
      end ].

Lemma filter_none {A : Type} (f : A -> bool) (l : list A) :
  Forall (fun x => f x = false) l -> filter f l = [].
Proof.
  induction 1 as [|x l Hx _ IH]; [reflexivity|].
  simpl. now rewrite Hx.
Qed.

(** A function that announces itself and emits no marker afterwards shows
    exactly that one marker. *)
Lemma markers_after_call {A : Type} (e : event) (k : M A) (h : history) :
  emits_only no_marker k ->
  filter is_marker (events (emit e ;; k) h) = filter is_marker [e].
Proof.
  intro Hk. rewrite events_bind.
  change (outcome (emit e) h) with (@Ok unit tt).
  change (events (emit e) h) with [e]. cbv beta iota.
  rewrite filter_app, (filter_none _ _ (Hk _)). apply app_nil_r.
Qed.

Lemma trade_no_marker W C sym bars t d :
  emits_only no_marker (trade W C sym bars t d).
Proof.
  unfold trade. emits_tac.
Qed.

Lemma markers_get_bars W C sym h :
  filter is_marker (events (get_bars W C sym) h) = [Call (F_get_bars sym)].
Proof.
  unfold get_bars. rewrite markers_after_call; [reflexivity|]. emits_tac.
Qed.

Lemma connect_ib_no_marker W C : emits_only no_marker (connect_ib W C).
Proof. unfold connect_ib. emits_tac. Qed.

Lemma markers_process_symbol W C sym h :
  filter is_marker (events (process_symbol W C sym) h)
  = [Call (F_get_bars sym)].
Proof.
  unfold process_symbol. rewrite events_bind, filter_app, markers_get_bars.
  rewrite filter_none; [reflexivity|].
  destruct (outcome (get_bars W C sym) h) as [bars|e]; [|constructor].
  assert (Hrest : emits_only no_marker
            (trig <- lift (find_trigger C bars) ;;
             match trig with
             | None => log_print INFO (Msg_no_trigger sym)
             | Some (t_time, d) => trade W C sym bars t_time d
             end)).
  { apply emits_only_bind; [apply emits_only_lift|].
    intros [[t d]|]; [apply trade_no_marker|].
    apply emits_only_log_print; reflexivity. }
  apply Hrest.
Qed.

(** One iteration never lets an exception out, and reports the one its body
    raised. *)
Lemma guarded_symbol_returns W C sym h :
  outcome (guarded_symbol W C sym) h = Ok tt.
Proof.
  unfold guarded_symbol, outcome. rewrite run_try_except.
  destruct (outcome (process_symbol W C sym) h) as [[]|e]; reflexivity.
Qed.

Lemma guarded_symbol_logs W C sym h e :
  outcome (process_symbol W C sym) h = Raise e ->
  events (guarded_symbol W C sym) h =
  events (process_symbol W C sym) h ++
  [Log ERROR (Msg_error sym e); Print (Msg_error sym e)].
Proof.
  intro H. unfold guarded_symbol, events at 1.
  rewrite run_try_except, H. reflexivity.
Qed.

Lemma markers_guarded_symbol W C sym h :
  filter is_marker (events (guarded_symbol W C sym) h)
  = [Call (F_get_bars sym)].
Proof.
  unfold guarded_symbol, events at 1. rewrite run_try_except.
  destruct (outcome (process_symbol W C sym) h) as [[]|e]; simpl.
  - apply markers_process_symbol.
  - rewrite filter_app. fold (events (process_symbol W C sym) h).
    rewrite markers_process_symbol. reflexivity.
Qed.

(** The loop over the symbols runs to its end and starts every symbol once,
    in the configured order. *)
Lemma symbol_loop W C (syms : list string) :
  forall h,
    outcome (for_each (guarded_symbol W C) syms) h = Ok tt /\
    filter is_marker (events (for_each (guarded_symbol W C) syms) h)
    = map (fun s => Call (F_get_bars s)) syms.
Proof.
  induction syms as [|s syms IH]; intro h; [split; reflexivity|].
  simpl for_each. rewrite outcome_bind, events_bind.
  rewrite guarded_symbol_returns.
  destruct (IH (h ++ events (guarded_symbol W C s) h)) as [Ho Hm].
  split; [exact Ho|].
  rewrite filter_app, markers_guarded_symbol, Hm. reflexivity.
Qed.

(* ------------------------------------------------------------------ *)
(** ** Orchestrator *)

Lemma eod_cleanup_events W C h :
  exists tail,
    events (eod_cleanup W C) h = Call F_eod_cleanup :: tail /\
    filter is_marker tail = [].
Proof.
  unfold eod_cleanup, flatten_position. rewrite events_bind.
  rewrite outcome_emit, events_emit. cbv beta iota.
  eexists. split; [reflexivity|].
  apply filter_none.
  match goal with
  | |- Forall _ (events ?k ?h') =>
      assert (Hk : emits_only no_marker k) by emits_tac; exact (Hk h')
  end.
Qed.

(** C2: once [connect_ib] has returned, every iteration of the loop returns
    normally, an exception of a symbol's body being logged and printed for
    that symbol; the run consists of what precedes the loop, the events of
    the loop, the entry of [eod_cleanup] and what follows it.  Processing is
    started for every configured symbol, once each and in order, inside the
    loop, and [eod_cleanup] is entered exactly once, after all of it,
    whatever the symbols did. *)
Theorem run_strategy_isolation (W : World) (C : Config) (h : history) :
  outcome (connect_ib W C) (h ++ [Log INFO Msg_started; Print Msg_started])
  = Ok tt ->
  (forall sym h',
      outcome (guarded_symbol W C sym) h' = Ok tt /\
      forall e, outcome (process_symbol W C sym) h' = Raise e ->
                events (guarded_symbol W C sym) h' =
                events (process_symbol W C sym) h' ++
                [Log ERROR (Msg_error sym e); Print (Msg_error sym e)]) /\
  exists before after,
    let loop :=
      events (for_each (guarded_symbol W C) (symbols C)) (h ++ before) in
    events (run_strategy W C) h
    = before ++ loop ++ Call F_eod_cleanup :: after /\
    filter is_marker before = [] /\
    filter is_marker loop = map (fun s => Call (F_get_bars s)) (symbols C) /\
    filter is_marker after = [].
Proof.
  intro Hconn. split.
  - intros sym h'. split.
    + apply guarded_symbol_returns.
    + apply guarded_symbol_logs.
  - unfold run_strategy.
    rewrite events_bind, outcome_log_print, events_log_print.
    set (h1 := h ++ [Log INFO Msg_started; Print Msg_started]) in *.
    rewrite events_bind, Hconn.
    set (h2 := h1 ++ events (connect_ib W C) h1).
    rewrite events_bind.
    destruct (symbol_loop W C (symbols C) h2) as [Hloop Hmark].
    rewrite Hloop.
    set (h3 := h2 ++ events (for_each (guarded_symbol W C) (symbols C)) h2).
    rewrite events_bind.
    destruct (eod_cleanup_events W C h3) as [tail [Heod Htail]].
    rewrite Heod.
    exists ([Log INFO Msg_started; Print Msg_started]
            ++ events (connect_ib W C) h1).
    exists (tail ++ match outcome (eod_cleanup W C) h3 with
                    | Ok _ => events (log_print INFO Msg_completed)
                                     (h3 ++ Call F_eod_cleanup :: tail)
                    | Raise _ => []
                    end).
    cbv zeta. rewrite (app_assoc h). fold h1. fold h2.
    split; [now rewrite <- !app_assoc|].
    repeat split.
    + rewrite filter_app.
      now rewrite (filter_none _ _ (connect_ib_no_marker W C h1)).
    + exact Hmark.
    + rewrite filter_app, Htail.
      destruct (outcome (eod_cleanup W C) h3); reflexivity.
Qed.

Lemma run_strategy_isolation_witness :
  (forall sym h',
      outcome (guarded_symbol failing_world live_config sym) h' = Ok tt /\
      forall e,
        outcome (process_symbol failing_world live_config sym) h' = Raise e ->
        events (guarded_symbol failing_world live_config sym) h' =
        events (process_symbol failing_world live_config sym) h' ++
        [Log ERROR (Msg_error sym e); Print (Msg_error sym e)]) /\
  exists before after,
    let loop :=
      events (for_each (guarded_symbol failing_world live_config)
                       (symbols live_config)) ([] ++ before) in
    events (run_strategy failing_world live_config) []
    = before ++ loop ++ Call F_eod_cleanup :: after /\
    filter is_marker before = [] /\
    filter is_marker loop
    = map (fun s => Call (F_get_bars s)) (symbols live_config) /\
    filter is_marker after = [].
Proof.
  apply (run_strategy_isolation failing_world live_config []).
  reflexivity.
Defined.

(** Every symbol fails in [failing_world], and the end-of-day step itself
    fails on its first broker request; it has been entered all the same. *)
Example failing_world_run :
  run_strategy failing_world live_config [] =
  (Raise (BrokerError 504),
   [Log INFO Msg_started; Print Msg_started;
    Call F_connect_ib; IB_connect "127.0.0.1" 7497 1; Log INFO Msg_connected;
    Call (F_get_bars "SPY"); IB_reqHistoricalData "SPY";
    Log ERROR (Msg_error "SPY" (BrokerError 162));
    Print (Msg_error "SPY" (BrokerError 162));
    Call (F_get_bars "QQQ"); IB_reqHistoricalData "QQQ";
    Log ERROR (Msg_error "QQQ" (BrokerError 162));
    Print (Msg_error "QQQ" (BrokerError 162));
    Call F_eod_cleanup; Datetime_now true; IB_openOrders]).
Proof. reflexivity. Qed.

(** When the connection cannot be established the exception leaves
    [run_strategy] before the loop: no symbol is started and the end-of-day
    step is not reached. *)
Lemma run_strategy_connect_fails (W : World) (C : Config) (h : history)
      (e : exn) :
  outcome (connect_ib W C) (h ++ [Log INFO Msg_started; Print Msg_started])
  = Raise e ->
  outcome (run_strategy W C) h = Raise e /\
  filter is_marker (events (run_strategy W C) h) = [].
Proof.
  intro Hconn. unfold run_strategy.
  rewrite outcome_bind, events_bind, outcome_log_print, events_log_print.
  rewrite outcome_bind, events_bind, Hconn.
  split; [reflexivity|].
  rewrite app_nil_r, filter_app.
  now rewrite (filter_none _ _ (connect_ib_no_marker W C _)).
Qed.

(* ------------------------------------------------------------------ *)
(** ** Simulation mode *)

Lemma mode_is_dummy (C : Config) : mode C = "DUMMY"%string -> is_dummy C = true.
Proof. intro H. unfold is_dummy. rewrite H. reflexivity. Qed.

Section Dummy.

Variables (W : World) (C : Config).
Hypothesis Hdummy : is_dummy C = true.



(** The frame of a symbol is the synthetic one. *)
Lemma get_bars_synthetic sym h :
  outcome (get_bars W C sym) h =
  Ok (dummy_frame
        (w_now W (h ++ [Call (F_get_bars sym)]) false)
        (map (w_randn W (h ++ [Call (F_get_bars sym); Datetime_now false]))
             (seq 0 72))).
Proof.
  unfold get_bars. rewrite Hdummy.
  unfold outcome, bind, emit, ask, ret.
  cbn [fst snd]. rewrite <- app_assoc. reflexivity.
Qed.







End Dummy.



(** A simulated run with a budget of 100000: the synthetic prices fall by
    3/2 per bar, a down trigger fires at the second bar after the warm-up
    window, and the entry is logged and printed, not submitted. *)
Example dummy_run :
  run_strategy calm_world (with_budget default_config 100000) [] =
  (Ok tt,
   [Log INFO Msg_started; Print Msg_started;
    Call F_connect_ib; Log INFO Msg_dummy_mode;
    Call (F_get_bars "SPY"); Datetime_now false; Randn 72;
    Log INFO (Msg_trigger "SPY" (at_hm 10 20) down);
    Print (Msg_trigger "SPY" (at_hm 10 20) down);
    Call (F_select_option "SPY"); Datetime_now true;
    Call F_place_orders;
    Log INFO (Msg_dummy_buy 3 {| c_symbol := "SPY"; c_expiry := 1;
                                 c_strike := 292; c_right := PUT;
                                 c_exchange := "SMART" |});
    Print (Msg_dummy_buy 3 {| c_symbol := "SPY"; c_expiry := 1;
                              c_strike := 292; c_right := PUT;
                              c_exchange := "SMART" |});
    Call F_eod_cleanup; Datetime_now true;
    Log INFO Msg_dummy_eod; Print Msg_dummy_eod;
    Log INFO Msg_completed; Print Msg_completed]).
Proof. vm_compute. reflexivity. Qed.

(* ------------------------------------------------------------------ *)
(** ** Bracket orders *)





(** The scenario of the specification: fill 100, quantity 10 and the default
    percentages give 9 at 110 and 10 at 90. *)
Example bracket_scenario :
  map fst (bracket default_config 100 10) = [9; 10] /\
  Forall2 Qeq (map snd (bracket default_config 100 10)) [110%Q; 90%Q].
Proof.
  split; [reflexivity|]. repeat constructor.
Qed.

(** The orders of a live entry in [calm_world]. *)
Example live_entry_orders :
  filter is_broker_call
         (events (place_orders calm_world live_config sample_contract 10) [])
  = [IB_placeOrder sample_contract (MarketOrder BUY 10);
     IB_sleep 1;
     IB_placeOrder sample_contract
       (with_oca (LimitOrder SELL 9 (5 * (1 + (1 # 10)))%Q) 57600 2);
     IB_placeOrder sample_contract
       (with_oca (LimitOrder SELL 10 (5 * (1 - (1 # 10)))%Q) 57600 2)].
Proof. reflexivity. Qed.


(* ================================================================== *)
(** * Further properties of the code *)

(* ------------------------------------------------------------------ *)
(** ** Where a trigger can sit *)

(** A trigger the loop returns is one of the rows it iterates over, and its
    direction is that row's own. *)
Lemma scan_returns_row (df2 : DataFrame) (rest : list Bar) :
  forall trigger t d,
    scan df2 trigger rest = Ok (Some (t, d)) ->
    exists curr, In curr rest /\ ts curr = t /\ dir_of curr = d.
Proof.
  induction rest as [|curr rest IH]; intros trigger t d H.
  - discriminate.
  - simpl in H. destruct trigger as [prev|bs]; [|discriminate].
    destruct (fires prev curr) eqn:E.
    + inversion H; subst. exists curr. repeat split.
      * now left.
      * symmetry. now apply fires_same_dir.
    + destruct (IH _ _ _ H) as [c [Hin [Ht Hd]]].
      exists c. repeat split; try assumption. now right.
Qed.

(** X1: whenever [find_trigger] returns a trigger, on any frame, its
    timestamp is the label of a row of the frame that passed the warm-up
    filter and comes after the first row kept; the direction returned is
    the direction of that row. *)
Theorem find_trigger_label (C : Config) (df : DataFrame) (t : Z)
        (d : direction) :
  find_trigger C df = Ok (Some (t, d)) ->
  exists b0 first others curr,
    hd_error df = Some b0 /\
    after_warmup C (ts b0) df = first :: others /\
    In curr others /\ In curr df /\ ts curr = t /\
    ts b0 + Timedelta_minutes (ignore_minutes C) <= t /\
    (d = up <-> candle_up curr).
Proof.
  intro H. destruct df as [|b0 rest]; [discriminate|].
  unfold find_trigger in H.
  destruct (after_warmup C (ts b0) (b0 :: rest)) as [|first others] eqn:E;
    [discriminate|].
  destruct (scan_returns_row _ _ _ _ _ H) as [curr [Hin [Ht Hd]]].
  assert (Hkept : In curr (after_warmup C (ts b0) (b0 :: rest))).
  { rewrite E. now right. }
  unfold after_warmup in Hkept. apply filter_In in Hkept.
  destruct Hkept as [Hdf Hle]. apply Z.leb_le in Hle.
  exists b0, first, others, curr. repeat split; try assumption.
  - now rewrite <- Ht.
  - intro Hup. apply dir_of_up. now rewrite Hd.
  - intro Hup. apply dir_of_up in Hup. now rewrite <- Hd.
Qed.

Lemma find_trigger_label_witness :
  exists b0 first others curr,
    hd_error rising_series = Some b0 /\
    after_warmup default_config (ts b0) rising_series = first :: others /\
    In curr others /\ In curr rising_series /\ ts curr = at_hm 9 50 /\
    ts b0 + Timedelta_minutes (ignore_minutes default_config) <= at_hm 9 50 /\
    (up = up <-> candle_up curr).
Proof.
  apply (find_trigger_label default_config rising_series (at_hm 9 50) up).
  reflexivity.
Defined.

(** X2: a non-empty frame of which the warm-up filter keeps fewer than two
    rows gives no-trigger, whatever the rows are. *)
Theorem find_trigger_short (C : Config) (b0 : Bar) (rest : list Bar) :
  (List.length (after_warmup C (ts b0) (b0 :: rest)) < 2)%nat ->
  find_trigger C (b0 :: rest) = Ok None.
Proof.
  intro H. unfold find_trigger.
  destruct (after_warmup C (ts b0) (b0 :: rest)) as [|a [|b l]];
    try reflexivity.
  simpl in H. lia.
Qed.

Lemma find_trigger_short_witness :
  find_trigger default_config (firstn 4 rising_series) = Ok None.
Proof.
  apply (find_trigger_short default_config
           {| ts := at_hm 9 30; open := 100; high := 100; low := 100;
              close := 100 |}
           (skipn 1 (firstn 4 rising_series))).
  vm_compute. lia.
Defined.

(* ------------------------------------------------------------------ *)
(** ** The warm-up filter on a bar series *)

Lemma filter_keeps_all {A : Type} (f : A -> bool) (l : list A) :
  Forall (fun x => f x = true) l -> filter f l = l.
Proof.
  induction 1 as [|x l Hx _ IH]; [reflexivity|].
  simpl. now rewrite Hx, IH.
Qed.

(** On rows in increasing order of label, keeping the labels from a bound on
    is dropping a prefix. *)
Lemma filter_from_is_suffix (bound : Z) (df : DataFrame) :
  bar_series df ->
  exists k, filter (fun b => bound <=? ts b) df = skipn k df.
Proof.
  unfold bar_series. induction df as [|a df IH]; intro Hs.
  - exists 0%nat. reflexivity.
  - simpl in Hs. inversion Hs as [|? ? Hs' Hall]; subst.
    simpl. destruct (bound <=? ts a) eqn:E.
    + exists 0%nat. simpl. f_equal.
      apply filter_keeps_all.
      rewrite Forall_map in Hall.
      eapply Forall_impl; [|exact Hall].
      intros b Hb. simpl in Hb. apply Z.leb_le. apply Z.leb_le in E. lia.
    + destruct (IH Hs') as [k Hk]. exists (S k). exact Hk.
Qed.

(** X3: on a bar series the warm-up filter keeps a tail of the frame, so two
    neighbouring rows after the filter are neighbours in the fetched frame;
    with a window of zero or fewer minutes it keeps every row. *)
Theorem after_warmup_suffix (C : Config) (b0 : Bar) (rest : list Bar) :
  bar_series (b0 :: rest) ->
  (exists k, after_warmup C (ts b0) (b0 :: rest) = skipn k (b0 :: rest)) /\
  (ignore_minutes C <= 0 ->
   after_warmup C (ts b0) (b0 :: rest) = b0 :: rest).
Proof.
  intro Hs. split.
  - now apply filter_from_is_suffix.
  - intro Hneg. unfold after_warmup. apply filter_keeps_all.
    assert (Hb : ts b0 + Timedelta_minutes (ignore_minutes C) <= ts b0).
    { unfold Timedelta_minutes, ns_per_minute. nia. }
    unfold bar_series in Hs. simpl in Hs.
    inversion Hs as [|? ? _ Hall]; subst.
    constructor.
    + apply Z.leb_le. exact Hb.
    + rewrite Forall_map in Hall.
      eapply Forall_impl; [|exact Hall].
      intros b Hlt. simpl in Hlt. apply Z.leb_le. lia.
Qed.

Lemma after_warmup_suffix_witness :
  (exists k, after_warmup default_config (at_hm 9 30) rising_series
             = skipn k rising_series) /\
  after_warmup scenario_config (at_hm 9 30) rising_series = rising_series.
Proof.
  split.
  - apply (proj1 (after_warmup_suffix default_config _ _ rising_series_sorted)).
  - apply (proj2 (after_warmup_suffix scenario_config _ _ rising_series_sorted)).
    vm_compute. discriminate.
Defined.

(* ------------------------------------------------------------------ *)
(** ** From a trigger to the reference price *)

Lemma nonempty_has_last {A : Type} (l : list A) :
  l <> [] -> exists init x, l = init ++ [x].
Proof.
  intro H. destruct (exists_last H) as [init [x Hx]]. now exists init, x.
Qed.

(** X4: a frame on which [find_trigger] found a trigger has a last row, so
    the [bars['close'].iloc[-1]] of [select_option] and of the sizing
    cannot raise [IndexError] after a trigger: it is that row's close. *)
Theorem trigger_has_reference_price (C : Config) (bars : DataFrame) (t : Z)
        (d : direction) :
  find_trigger C bars = Ok (Some (t, d)) ->
  exists init b, bars = init ++ [b] /\ reference_price bars = Ok (close b).
Proof.
  intro H.
  assert (Hne : bars <> []) by (intro E; subst; discriminate).
  destruct (nonempty_has_last bars Hne) as [init [b Hb]].
  exists init, b. split; [exact Hb|].
  rewrite Hb. apply reference_price_last.
Qed.

Lemma trigger_has_reference_price_witness :
  exists init b,
    rising_series = init ++ [b] /\ reference_price rising_series = Ok (close b).
Proof.
  apply (trigger_has_reference_price default_config rising_series
                                     (at_hm 9 50) up).
  reflexivity.
Defined.

(* ------------------------------------------------------------------ *)
(** ** Floor, ceiling and the fractional part *)

Lemma Qfloor_ge (z : Z) (x : Q) : z <= Qfloor x <-> (inject_Z z <= x)%Q.
Proof.
  split; intro H.
  - apply Qle_trans with (inject_Z (Qfloor x)); [|apply Qfloor_le].
    now rewrite <- Zle_Qle.
  - rewrite <- (Qfloor_Z z). now apply Qfloor_resp_le.
Qed.

Lemma floor_bounds (x : Q) :
  (inject_Z (Qfloor x) <= x)%Q /\ (x < inject_Z (Qfloor x) + 1)%Q.
Proof.
  split; [apply Qfloor_le|].
  pose proof (Qlt_floor x) as H. now rewrite inject_Z_plus in H.
Qed.

Lemma inject_Z_pred (z : Z) : (inject_Z (z - 1) == inject_Z z - 1)%Q.
Proof.
  unfold Z.sub. rewrite inject_Z_plus. reflexivity.
Qed.

Lemma ceiling_bounds (x : Q) :
  (inject_Z (Qceiling x) - 1 < x)%Q /\ (x <= inject_Z (Qceiling x))%Q.
Proof.
  split; [|apply Qle_ceiling].
  pose proof (Qceiling_lt x) as H.
  unfold Z.sub in H. rewrite inject_Z_plus in H. exact H.
Qed.

Lemma Qfloor_unique (z : Z) (x : Q) :
  (inject_Z z <= x)%Q -> (x < inject_Z z + 1)%Q -> Qfloor x = z.
Proof.
  intros Hle Hlt. apply Z.le_antisymm.
  - assert (H : Qfloor x < z + 1); [|lia].
    rewrite Zlt_Qlt, inject_Z_plus.
    eapply Qle_lt_trans; [apply Qfloor_le | exact Hlt].
  - now apply Qfloor_ge.
Qed.

(* ------------------------------------------------------------------ *)
(** ** Position sizer: what the budget affords *)




(** With the default budget of 10000 a price above 100 sizes to zero. *)
Example default_budget_400 : size default_config 400 = 0.
Proof. reflexivity. Qed.

(* ------------------------------------------------------------------ *)
(** ** Strike selection: when the fallback matters *)

Lemma candidate_within_one (d : direction) (p : Q) :
  (Qabs (inject_Z (match d with up => Qceiling p | down => Qfloor p end) - p)
   < 1)%Q.
Proof.
  destruct (floor_bounds p) as [Hf1 Hf2].
  destruct (ceiling_bounds p) as [Hc1 Hc2].
  destruct d; apply Qabs_case; intros _; lra.
Qed.

(** X6: with an OTM threshold of at least 1 (the default) the fallback of
    [select_option] is never taken: the strike is the ceiling of the price
    for up and its floor for down, for every price. *)
Theorem strike_threshold_one (C : Config) (d : direction) (p : Q) :
  (1 <= otm_threshold C)%Q ->
  select_strike C d p = match d with up => Qceiling p | down => Qfloor p end.
Proof.
  intro Hthr. unfold select_strike.
  pose proof (candidate_within_one d p) as Hc.
  set (k := match d with up => Qceiling p | down => Qfloor p end) in *.
  assert (E : Qgtb (Qabs (inject_Z k - p)) (otm_threshold C) = false).
  { apply Qgtb_false. lra. }
  now rewrite E.
Qed.

Lemma strike_threshold_one_witness :
  select_strike default_config down (40120 # 100) = Qfloor (40120 # 100).
Proof.
  apply (strike_threshold_one default_config down (40120 # 100)).
  vm_compute. discriminate.
Defined.

(** X7: for direction up, a positive price and a threshold that is not
    negative, the strike is the ceiling of the price whether or not the
    fallback is taken: [int(price) + 1] is the ceiling of every price that
    is not an integer, and an integer price is at distance 0. *)
Theorem strike_up_is_ceiling (C : Config) (p : Q) :
  (0 <= otm_threshold C)%Q -> (0 < p)%Q ->
  select_strike C up p = Qceiling p.
Proof.
  intros Hthr Hp. unfold select_strike.
  destruct (Qgtb (Qabs (inject_Z (Qceiling p) - p)) (otm_threshold C)) eqn:E;
    [|reflexivity].
  apply Qgtb_true in E.
  destruct (ceiling_bounds p) as [Hc1 Hc2].
  rewrite Qabs_pos in E by lra.
  rewrite py_int_pos by exact Hp.
  assert (Hfl : Qfloor p = Qceiling p - 1).
  { apply Qfloor_unique; rewrite inject_Z_pred; lra. }
  lia.
Qed.

Lemma strike_up_is_ceiling_witness :
  select_strike (with_otm default_config (1 # 2)) up (4012 # 10) = Qceiling (4012 # 10).
Proof.
  apply (strike_up_is_ceiling (with_otm default_config (1 # 2)) (4012 # 10)).
  - vm_compute. discriminate.
  - reflexivity.
Defined.

(** X8: for a positive price the strike of a call is at or above the price
    and at most 1 above it; the strike of a put is at or below the price and
    less than 2 below it. *)
Theorem strike_side (C : Config) (d : direction) (p : Q) :
  (0 < p)%Q ->
  match d with
  | up => (p <= inject_Z (select_strike C up p))%Q /\
          (inject_Z (select_strike C up p) <= p + 1)%Q
  | down => (inject_Z (select_strike C down p) <= p)%Q /\
            (p - 2 < inject_Z (select_strike C down p))%Q
  end.
Proof.
  intro Hp.
  destruct (floor_bounds p) as [Hf1 Hf2].
  destruct (ceiling_bounds p) as [Hc1 Hc2].
  destruct d; unfold select_strike;
    match goal with
    | |- context [Qgtb ?a ?b] => destruct (Qgtb a b)
    end;
    rewrite ?py_int_pos by exact Hp;
    rewrite ?inject_Z_plus;
    change (inject_Z 1) with 1%Q; change (inject_Z (-1)) with (-1)%Q;
    split; lra.
Qed.

Lemma strike_side_witness :
  (inject_Z (select_strike (with_otm default_config (1 # 2)) down (4018 # 10))
   <= 4018 # 10)%Q /\
  ((4018 # 10) - 2
   < inject_Z (select_strike (with_otm default_config (1 # 2)) down (4018 # 10)))%Q.
Proof.
  apply (strike_side (with_otm default_config (1 # 2)) down (4018 # 10)).
  reflexivity.
Defined.

(** A put at 401.8 with threshold 1/2: the floor 401 is 0.8 away, and the
    fallback moves the strike to 400, 1.8 away. *)
Example put_fallback_moves_away :
  select_strike (with_otm default_config (1 # 2)) down (4018 # 10) = 400.
Proof. reflexivity. Qed.

(* ------------------------------------------------------------------ *)
(** ** Placing orders *)




(** In [failing_world] the entry is refused and nothing follows it. *)
Example refused_entry :
  place_orders failing_world live_config sample_contract 10 [] =
  (Raise (BrokerError 201),
   [Call F_place_orders;
    IB_placeOrder sample_contract (MarketOrder BUY 10)]).
Proof. reflexivity. Qed.




(** X11: for a fill price and percentages that are not negative, the
    take-profit price of the bracket is at or above the fill and the
    stop-loss price at or below it. *)
Theorem bracket_prices_straddle_fill (C : Config) (f : Q) (q : Z) :
  (0 <= f)%Q -> (0 <= take_profit_pct C)%Q -> (0 <= stop_loss_pct C)%Q ->
  exists tp_qty tp sl,
    bracket C f q = [(tp_qty, tp); (q, sl)] /\ (sl <= f)%Q /\ (f <= tp)%Q.
Proof.
  intros Hf Htp Hsl. unfold bracket. eexists _, _, _.
  split; [reflexivity|].
  pose proof (Qmult_le_0_compat _ _ Hf Htp) as H1.
  pose proof (Qmult_le_0_compat _ _ Hf Hsl) as H2.
  split.
  - setoid_replace (f * (1 - stop_loss_pct C))%Q
      with (f - f * stop_loss_pct C)%Q by ring.
    lra.
  - setoid_replace (f * (1 + take_profit_pct C))%Q
      with (f + f * take_profit_pct C)%Q by ring.
    lra.
Qed.

Lemma bracket_prices_straddle_fill_witness :
  exists tp_qty tp sl,
    bracket default_config 100 10 = [(tp_qty, tp); (10, sl)] /\
    (sl <= 100)%Q /\ (100 <= tp)%Q.
Proof.
  apply (bracket_prices_straddle_fill default_config 100 10);
    vm_compute; discriminate.
Defined.

(* ------------------------------------------------------------------ *)
(** ** When an order can be placed *)

Lemma get_bars_no_placeOrder W C sym :
  emits_only no_placeOrder (get_bars W C sym).
Proof. unfold get_bars. emits_tac. Qed.

Lemma select_option_no_placeOrder W C sym d bars :
  emits_only no_placeOrder (select_option W C sym d bars).
Proof. unfold select_option. emits_tac. Qed.

Lemma filter_nil_app {A : Type} (f : A -> bool) (l1 l2 : list A) :
  Forall (fun x => f x = false) l1 ->
  filter f (l1 ++ l2) = filter f l2.
Proof.
  intro H. now rewrite filter_app, (filter_none _ _ H).
Qed.

(** X12: orders are placed for a symbol only behind both guards: if the
    processing of a symbol sends any order to the broker, then its bars were
    fetched, [find_trigger] returned a trigger on them, and the size at the
    last close is at least 1.  And [place_orders] itself sends nothing for a
    quantity below 1. *)
Theorem orders_need_trigger_and_size (W : World) (C : Config) :
  (forall c q h, q < 1 ->
     place_orders W C c q h =
     (Ok tt, [Call F_place_orders;
              Log WARNING (Msg_qty_skip (c_symbol c) q)])) /\
  (forall sym h,
     filter is_placeOrder (events (process_symbol W C sym) h) <> [] ->
     exists bars t d p,
       outcome (get_bars W C sym) h = Ok bars /\
       find_trigger C bars = Ok (Some (t, d)) /\
       reference_price bars = Ok p /\
       1 <= size C p).
Proof.
  split.
  - intros c q h Hq. unfold place_orders.
    assert (E : (q <? 1) = true) by (apply Z.ltb_lt; lia).
    now rewrite E.
  - intros sym h Hplaced. unfold process_symbol in Hplaced.
    rewrite events_bind in Hplaced.
    rewrite (filter_nil_app _ _ _ (get_bars_no_placeOrder W C sym h))
      in Hplaced.
    destruct (outcome (get_bars W C sym) h) as [bars|e] eqn:Hbars;
      [|now contradiction Hplaced].
    set (h1 := h ++ events (get_bars W C sym) h) in *.
    rewrite events_bind in Hplaced.
    change (events (lift (find_trigger C bars)) h1) with (@nil event)
      in Hplaced.
    change (outcome (lift (find_trigger C bars)) h1)
      with (find_trigger C bars) in Hplaced.
    destruct (find_trigger C bars) as [[[t d]|]|e] eqn:Htrig;
      try (now contradiction Hplaced).
    unfold trade in Hplaced. cbn [app] in Hplaced.
    rewrite events_bind, outcome_log_print, events_log_print in Hplaced.
    cbn [app filter is_placeOrder] in Hplaced.
    rewrite events_bind in Hplaced.
    rewrite (filter_nil_app _ _ _ (select_option_no_placeOrder W C sym d bars _))
      in Hplaced.
    destruct (outcome (select_option W C sym d bars) _) as [contract|e];
      [|now contradiction Hplaced].
    rewrite events_bind in Hplaced.
    match type of Hplaced with
    | context [outcome (lift ?r) ?h'] =>
        change (outcome (lift r) h') with r in Hplaced;
        change (events (lift r) h') with (@nil event) in Hplaced
    end.
    destruct (reference_price bars) as [p|e] eqn:Hp;
      [|now contradiction Hplaced].
    cbn [app] in Hplaced.
    destruct (size C p <? 1) eqn:Hsz.
    + rewrite events_log_print in Hplaced. now contradiction Hplaced.
    + apply Z.ltb_ge in Hsz.
      exists bars, t, d, p. repeat split; assumption || reflexivity.
Qed.

Lemma orders_need_trigger_and_size_witness :
  place_orders calm_world live_config sample_contract 0 [] =
  (Ok tt, [Call F_place_orders; Log WARNING (Msg_qty_skip "SPY" 0)]) /\
  exists bars t d p,
    outcome (get_bars calm_world live_config "SPY") [] = Ok bars /\
    find_trigger live_config bars = Ok (Some (t, d)) /\
    reference_price bars = Ok p /\
    1 <= size live_config p.
Proof.
  destruct (orders_need_trigger_and_size calm_world live_config) as [Hg Hp].
  split.
  - apply (Hg sample_contract 0 []). lia.
  - apply (Hp "SPY"%string []). vm_compute. discriminate.
Defined.

(* ------------------------------------------------------------------ *)
(** ** End-of-day cleanup *)

Lemma outcome_lift {A : Type} (r : result A) (h : history) :
  outcome (lift r) h = r.
Proof. reflexivity. Qed.

Lemma events_lift {A : Type} (r : result A) (h : history) :
  events (lift r) h = [].
Proof. reflexivity. Qed.

(** [run_cases] with [lift] and the two-line logger. *)
Ltac exec_step :=
  progress (rewrite ?outcome_bind, ?events_bind, ?outcome_emit, ?events_emit,
             ?outcome_ask, ?events_ask, ?outcome_peek, ?events_peek,
             ?outcome_ret, ?events_ret, ?outcome_lift, ?events_lift,
             ?outcome_log_print, ?events_log_print;
            cbv beta iota).

Ltac exec_cases :=
  repeat first
    [ exec_step
    | match goal with
      | H : ?t = _ |- context [?t] => rewrite H
      end
    | match goal with
      | |- context [match ?x with Ok _ => _ | Raise _ => _ end] =>
          destruct x eqn:?
      end ].


Lemma flatten_position_events W pos h :
  events (flatten_position W pos) h = closing_requests [pos].
Proof.
  unfold flatten_position, closing_requests, closing_order. simpl.
  destruct (truthy (p_position pos)); reflexivity.
Qed.






(** The cleanup of [closing_world]: two cancellations, then a SELL of 2 for
    the long position and a BUY of 3 for the short one; the flat position
    gets no order. *)
Example closing_world_cleanup :
  filter is_broker_call (events (eod_cleanup closing_world live_config) []) =
  [IB_openOrders;
   IB_cancelOrder working_order; IB_cancelOrder (MarketOrder BUY 1);
   IB_positions;
   IB_placeOrder sample_contract (MarketOrder SELL 2);
   IB_placeOrder sample_contract (MarketOrder BUY 3);
   IB_disconnect].
Proof. reflexivity. Qed.

(** X13: [eod_cleanup] sends a request to the broker only in live mode, with
    a well-formed [eod_time], and when the clock it read has reached the
    cutoff; before the cutoff, in DUMMY mode or with a malformed time
    nothing is cancelled, closed or disconnected. *)
Theorem eod_cleanup_gate (W : World) (C : Config) (h : history) :
  filter is_broker_call (events (eod_cleanup W C) h) <> [] ->
  is_dummy C = false /\
  exists cutoff,
    eod_time C = Ok cutoff /\
    cutoff <= dt_tod (w_now W (h ++ [Call F_eod_cleanup]) true).
Proof.
  unfold eod_cleanup. repeat exec_step.
  destruct (eod_time C) as [cutoff|e]; cbv beta iota;
    [|intro H; now contradiction H].
  destruct (dt_tod (w_now W (h ++ [Call F_eod_cleanup]) true) <? cutoff)
    eqn:Hcut; repeat exec_step; [intro H; now contradiction H|].
  destruct (is_dummy C); repeat exec_step; [intro H; now contradiction H|].
  intros _. split; [reflexivity|].
  exists cutoff. split; [reflexivity|]. now apply Z.ltb_ge.
Qed.

Lemma eod_cleanup_gate_witness :
  is_dummy live_config = false /\
  exists cutoff,
    eod_time live_config = Ok cutoff /\
    cutoff <= dt_tod (w_now closing_world ([] ++ [Call F_eod_cleanup]) true).
Proof.
  apply (eod_cleanup_gate closing_world live_config []).
  vm_compute. discriminate.
Defined.

(** Before the cutoff the live cleanup reads the clock and returns. *)
Example morning_cleanup :
  eod_cleanup morning_world live_config [] =
  (Ok tt, [Call F_eod_cleanup; Datetime_now true]).
Proof. reflexivity. Qed.

Lemma truthy_false (x : Q) : truthy x = false <-> (x == 0)%Q.
Proof.
  unfold truthy. rewrite negb_false_iff. apply Qeq_bool_iff.
Qed.

Lemma py_int_inject_Z (z : Z) : py_int (inject_Z z) = z.
Proof.
  unfold py_int.
  destruct (Qle_bool 0 (inject_Z z)); [apply Qfloor_Z | apply Qceiling_Z].
Qed.

Lemma closing_order_signed (pos : Position) :
  signed_quantity (closing_order pos) = - py_int (p_position pos).
Proof.
  unfold closing_order, signed_quantity, MarketOrder. cbn [action totalQuantity].
  destruct (Qgtb (p_position pos) 0) eqn:E.
  - apply Qgtb_true in E.
    rewrite py_int_pos by exact E.
    assert (0 <= Qfloor (p_position pos)).
    { apply Qfloor_ge. change (inject_Z 0) with 0%Q. lra. }
    lia.
  - apply Qgtb_false in E.
    assert (H : py_int (p_position pos) <= 0).
    { unfold py_int. destruct (Qle_bool 0 (p_position pos)) eqn:E0.
      - apply Qle_bool_iff in E0.
        rewrite <- (Qfloor_Z 0). apply Qfloor_resp_le.
        change (inject_Z 0) with 0%Q. lra.
      - rewrite <- (Qceiling_Z 0). apply Qceiling_resp_le.
        change (inject_Z 0) with 0%Q. exact E. }
    lia.
Qed.

(** X15: the closing step of [eod_cleanup] sends nothing for a position of
    zero; for any other position it sends one market order whose signed
    quantity is minus [int(position)], so a whole-number position, long or
    short, is brought to exactly zero. *)
Theorem flatten_position_closes (W : World) (pos : Position) (h : history) :
  ((p_position pos == 0)%Q -> events (flatten_position W pos) h = []) /\
  (~ (p_position pos == 0)%Q ->
   exists o,
     events (flatten_position W pos) h = [IB_placeOrder (p_contract pos) o] /\
     lmtPrice o = None /\
     signed_quantity o = - py_int (p_position pos) /\
     forall z, (p_position pos == inject_Z z)%Q -> z + signed_quantity o = 0).
Proof.
  rewrite flatten_position_events. unfold closing_requests. cbn [flat_map].
  rewrite app_nil_r. split.
  - intro H0. apply truthy_false in H0. now rewrite H0.
  - intro Hn.
    destruct (truthy (p_position pos)) eqn:E.
    + exists (closing_order pos). split; [reflexivity|].
      split; [reflexivity|].
      split; [apply closing_order_signed|].
      intros z Hz. rewrite closing_order_signed.
      rewrite (py_int_comp _ _ Hz), py_int_inject_Z. lia.
    + apply truthy_false in E. contradiction.
Qed.

Lemma flatten_position_closes_witness :
  events (flatten_position closing_world
            {| p_contract := sample_contract; p_position := 0 |}) [] = [] /\
  exists o,
    events (flatten_position closing_world
              {| p_contract := sample_contract; p_position := -3 |}) []
    = [IB_placeOrder sample_contract o] /\
    lmtPrice o = None /\
    signed_quantity o = - py_int (-3) /\
    forall z, (-3 == inject_Z z)%Q -> z + signed_quantity o = 0.
Proof.
  split.
  - apply (proj1 (flatten_position_closes
                    closing_world
                    {| p_contract := sample_contract; p_position := 0 |} [])).
    reflexivity.
  - apply (proj2 (flatten_position_closes
                    closing_world
                    {| p_contract := sample_contract; p_position := -3 |} [])).
    vm_compute. discriminate.
Defined.

(** A position of half a contract is not zero, and its closing order is for
    [int(0.5) = 0] contracts. *)
Example half_contract_position :
  closing_requests [ {| p_contract := sample_contract; p_position := 1 # 2 |} ]
  = [IB_placeOrder sample_contract (MarketOrder SELL 0)].
Proof. reflexivity. Qed.

Lemma cancel_loop_not_disconnect W (orders : list Order) :
  emits_only not_disconnect
    (for_each (fun o => ask (IB_cancelOrder o) (fun h => w_cancelOrder W h o))
              orders).
Proof.
  apply emits_only_for_each. intro o. apply emits_only_ask. discriminate.
Qed.

Lemma closing_loop_not_disconnect W (positions : list Position) :
  emits_only not_disconnect (for_each (flatten_position W) positions).
Proof.
  apply emits_only_for_each. intro pos. unfold flatten_position.
  destruct (truthy (p_position pos)).
  - apply emits_only_ask. discriminate.
  - apply emits_only_ret.
Qed.

Lemma not_disconnect_not_in (l : list event) :
  Forall not_disconnect l -> ~ In IB_disconnect l.
Proof.
  intros H Hin. rewrite Forall_forall in H. exact (H _ Hin eq_refl).
Qed.

(** X16: [eod_cleanup] has no [finally]: when it raises, and the disconnect
    itself is not what failed, the session has not been disconnected.  A
    refused listing, cancellation or closing order leaves the connection
    open and the remaining orders and positions untouched. *)
Theorem eod_failure_keeps_session (W : World) (C : Config) (h : history)
        (e : exn) :
  outcome (eod_cleanup W C) h = Raise e ->
  (forall h', w_disconnect W h' = Ok tt) ->
  ~ In IB_disconnect (events (eod_cleanup W C) h).
Proof.
  intros Hraise Hdisc. revert Hraise.
  unfold eod_cleanup. repeat exec_step.
  destruct (eod_time C) as [cutoff|e0]; cbv beta iota.
  - destruct (dt_tod (w_now W (h ++ [Call F_eod_cleanup]) true) <? cutoff);
      repeat exec_step; [discriminate|].
    destruct (is_dummy C); repeat exec_step; [discriminate|].
    exec_cases; intro Hr; try discriminate Hr;
      try (rewrite Hdisc in *; discriminate);
      apply not_disconnect_not_in;
      repeat (apply Forall_app; split);
      try (apply cancel_loop_not_disconnect);
      try (apply closing_loop_not_disconnect);
      repeat constructor; discriminate.
  - intros _. apply not_disconnect_not_in. repeat constructor; discriminate.
Qed.

Lemma eod_failure_keeps_session_witness :
  ~ In IB_disconnect (events (eod_cleanup cancel_failing_world live_config) []).
Proof.
  apply (eod_failure_keeps_session cancel_failing_world live_config []
                                   (BrokerError 10147)).
  - reflexivity.
  - intro h'. reflexivity.
Defined.

(** In [cancel_failing_world] the first cancellation is refused: the second
    order stays, no position is closed, the session stays connected. *)
Example refused_cancellation :
  eod_cleanup cancel_failing_world live_config [] =
  (Raise (BrokerError 10147),
   [Call F_eod_cleanup; Datetime_now true; IB_openOrders;
    IB_cancelOrder working_order]).
Proof. reflexivity. Qed.

(* ------------------------------------------------------------------ *)
(** ** The synthetic frame of DUMMY mode *)

Lemma cumsum_length (acc : Q) (l : list Q) :
  List.length (cumsum acc l) = List.length l.
Proof.
  revert acc. induction l as [|x l IH]; intro acc; [reflexivity|].
  simpl. now rewrite IH.
Qed.

Lemma combine_seq_from (n : nat) :
  forall (a : nat) (l : list Q),
    Forall (fun ip : nat * Q => (a <= fst ip)%nat) (combine (seq a n) l).
Proof.
  induction n as [|n IH]; intros a l; [constructor|].
  destruct l as [|x l]; [constructor|]. simpl. constructor.
  - simpl. lia.
  - eapply Forall_impl; [|apply (IH (S a) l)].
    intros ip H. simpl in H. lia.
Qed.

(** Rows built from increasing indices by an increasing map have increasing
    labels. *)
Lemma indexed_rows_sorted (label : nat -> Z) (row : nat * Q -> Bar) :
  (forall i j, (i < j)%nat -> label i < label j) ->
  (forall ip, ts (row ip) = label (fst ip)) ->
  forall n a l, bar_series (map row (combine (seq a n) l)).
Proof.
  intros Hmono Hts. unfold bar_series.
  induction n as [|n IH]; intros a l; [constructor|].
  destruct l as [|x l]; [constructor|]. simpl.
  constructor; [apply IH|].
  rewrite Forall_map, Forall_map.
  eapply Forall_impl; [|apply (combine_seq_from n (S a) l)].
  intros ip H. simpl in H. rewrite !Hts. simpl. apply Hmono. lia.
Qed.

Lemma dummy_frame_sorted (now : DateTime) (noise : list Q) :
  bar_series (dummy_frame now noise).
Proof.
  unfold dummy_frame.
  apply (indexed_rows_sorted
           (fun i => datetime_ns now - 6 * 60 * ns_per_minute
                     + Z.of_nat i * (5 * ns_per_minute))).
  - intros i j Hij. unfold ns_per_minute. nia.
  - intros [i p]. reflexivity.
Qed.

Lemma dummy_frame_rows (now : DateTime) (noise : list Q) :
  Forall synthetic_row (dummy_frame now noise).
Proof.
  unfold dummy_frame. rewrite Forall_map. apply Forall_forall.
  intros [i p] _. repeat split.
Qed.

Lemma dummy_frame_length (now : DateTime) (noise : list Q) :
  List.length noise = 72%nat ->
  List.length (dummy_frame now noise) = 72%nat.
Proof.
  intro H. unfold dummy_frame.
  rewrite length_map, length_combine, length_seq, length_map, cumsum_length, H.
  reflexivity.
Qed.

Lemma dummy_frame_labels (now : DateTime) (noise : list Q) :
  List.length noise = 72%nat ->
  map ts (dummy_frame now noise) =
  map (fun i => datetime_ns now - 6 * 60 * ns_per_minute
                + Z.of_nat i * (5 * ns_per_minute))
      (seq 0 72).
Proof.
  intro H. unfold dummy_frame. rewrite map_map.
  assert (Hlen : List.length (map (fun s => (400 + s)%Q) (cumsum 0 noise))
                 = List.length (seq 0 72)).
  { now rewrite length_map, cumsum_length, length_seq. }
  revert Hlen. generalize (map (fun s => (400 + s)%Q) (cumsum 0 noise)).
  generalize (seq 0 72).
  induction l as [|i l IH]; intros prices Hlen.
  - reflexivity.
  - destruct prices as [|p prices]; [discriminate|].
    simpl. f_equal. apply IH. now inversion Hlen.
Qed.

(** X17: in DUMMY mode [get_bars] always returns, after one clock read and
    one draw of 72 random numbers, a frame of exactly 72 rows labelled every
    five minutes from six hours before the clock read, in strictly
    increasing order, each row flat (open = close) with high and low one
    unit from the close. *)
Theorem get_bars_dummy_frame (W : World) (C : Config) (sym : string)
        (h : history) :
  is_dummy C = true ->
  exists df,
    outcome (get_bars W C sym) h = Ok df /\
    events (get_bars W C sym) h
    = [Call (F_get_bars sym); Datetime_now false; Randn 72] /\
    List.length df = 72%nat /\
    bar_series df /\
    Forall synthetic_row df /\
    map ts df =
    map (fun i =>
           datetime_ns (w_now W (h ++ [Call (F_get_bars sym)]) false)
           - 6 * 60 * ns_per_minute + Z.of_nat i * (5 * ns_per_minute))
        (seq 0 72).
Proof.
  intro Hd. eexists. split; [apply (get_bars_synthetic W C Hd)|].
  assert (Hlen : forall f : nat -> Q, List.length (map f (seq 0 72)) = 72%nat).
  { intro f. now rewrite length_map, length_seq. }
  split; [|split; [|split; [|split]]].
  - unfold get_bars. rewrite Hd. reflexivity.
  - apply dummy_frame_length, Hlen.
  - apply dummy_frame_sorted.
  - apply dummy_frame_rows.
  - apply dummy_frame_labels, Hlen.
Qed.

Lemma get_bars_dummy_frame_witness :
  exists df,
    outcome (get_bars calm_world default_config "SPY") [] = Ok df /\
    events (get_bars calm_world default_config "SPY") []
    = [Call (F_get_bars "SPY"); Datetime_now false; Randn 72] /\
    List.length df = 72%nat /\
    bar_series df /\
    Forall synthetic_row df /\
    map ts df =
    map (fun i =>
           datetime_ns (w_now calm_world ([] ++ [Call (F_get_bars "SPY")]) false)
           - 6 * 60 * ns_per_minute + Z.of_nat i * (5 * ns_per_minute))
        (seq 0 72).
Proof.
  apply (get_bars_dummy_frame calm_world default_config "SPY" []).
  reflexivity.
Defined.

Lemma Ok_inj {A : Type} (a b : A) : Ok a = Ok b -> a = b.
Proof. intro H. now injection H. Qed.

Lemma adjacent_In (l : list Bar) (i : nat) (prev curr : Bar) :
  adjacent l i prev curr -> In prev l /\ In curr l.
Proof.
  intros [H1 H2]. split; eapply nth_error_In; eassumption.
Qed.

Lemma synthetic_not_up (b : Bar) : synthetic_row b -> ~ candle_up b.
Proof.
  intros [Ho _] Hup. unfold candle_up in Hup. rewrite Ho in Hup.
  exact (Qlt_irrefl _ Hup).
Qed.

(** X18: on the frame of DUMMY mode [find_trigger] never raises and never
    returns direction up: every synthetic candle is flat, hence down, so a
    simulated run only ever takes the down path; and a trigger, when there
    is one, sits at a candle whose close is more than 1 below the close of
    the candle just before it. *)
Theorem dummy_trigger_is_down (W : World) (C : Config) (sym : string)
        (h : history) (df : DataFrame) :
  is_dummy C = true ->
  outcome (get_bars W C sym) h = Ok df ->
  find_trigger C df = Ok None \/
  exists b0 i prev curr,
    hd_error df = Some b0 /\
    adjacent (after_warmup C (ts b0) df) i prev curr /\
    In prev df /\ In curr df /\
    (close curr < close prev - 1)%Q /\
    find_trigger C df = Ok (Some (ts curr, down)).
Proof.
  intros Hd Hbars.
  rewrite (get_bars_synthetic W C Hd) in Hbars. apply Ok_inj in Hbars.
  subst df.
  set (now := w_now W (h ++ [Call (F_get_bars sym)]) false) in *.
  set (noise := map (w_randn W (h ++ [Call (F_get_bars sym);
                                      Datetime_now false])) (seq 0 72)) in *.
  pose proof (dummy_frame_sorted now noise) as Hs.
  pose proof (dummy_frame_rows now noise) as Hrows.
  rewrite Forall_forall in Hrows.
  destruct (dummy_frame now noise) as [|b0 rest] eqn:E.
  - exfalso. apply (f_equal (@List.length Bar)) in E.
    rewrite dummy_frame_length in E; [discriminate|].
    unfold noise. now rewrite length_map, length_seq.
  - destruct (find_trigger_first_breakout C b0 rest Hs)
      as [[i [prev [curr [d [Hadj [Hb [_ [Hdir Hres]]]]]]]] | [_ Hres]];
      [right | now left].
    destruct (adjacent_In _ _ _ _ Hadj) as [Hinp Hinc].
    unfold after_warmup in Hinp, Hinc.
    apply filter_In in Hinp. apply filter_In in Hinc.
    destruct Hinp as [Hinp _]. destruct Hinc as [Hinc _].
    pose proof (Hrows _ Hinp) as Hsp. pose proof (Hrows _ Hinc) as Hsc.
    exists b0, i, prev, curr.
    split; [reflexivity|]. split; [exact Hadj|].
    split; [exact Hinp|]. split; [exact Hinc|].
    assert (Hdown : d = down).
    { destruct d; [|reflexivity].
      exfalso. apply (synthetic_not_up _ Hsc). now apply Hdir. }
    subst d. split; [|exact Hres].
    destruct Hb as [[Hup _] | [_ [_ Hlow]]].
    + exfalso. exact (synthetic_not_up _ Hsp Hup).
    + destruct Hsp as [_ [_ Hl]]. now rewrite Hl in Hlow.
Qed.

Lemma dummy_trigger_is_down_witness :
  exists df,
    outcome (get_bars calm_world default_config "SPY") [] = Ok df /\
    (find_trigger default_config df = Ok None \/
     exists b0 i prev curr,
       hd_error df = Some b0 /\
       adjacent (after_warmup default_config (ts b0) df) i prev curr /\
       In prev df /\ In curr df /\
       (close curr < close prev - 1)%Q /\
       find_trigger default_config df = Ok (Some (ts curr, down))).
Proof.
  eexists. split; [reflexivity|].
  apply (dummy_trigger_is_down calm_world default_config "SPY" []).
  - reflexivity.
  - reflexivity.
Defined.

(* ------------------------------------------------------------------ *)
(** ** How a run ends *)

Lemma run_strategy_outcome (W : World) (C : Config) (h : history) :
  outcome (connect_ib W C) (h ++ [Log INFO Msg_started; Print Msg_started])
  = Ok tt ->
  exists h', outcome (run_strategy W C) h = outcome (eod_cleanup W C) h'.
Proof.
  intro Hconn. unfold run_strategy.
  rewrite outcome_bind, outcome_log_print, events_log_print.
  rewrite outcome_bind, Hconn.
  rewrite outcome_bind.
  match goal with
  | |- context [outcome (for_each _ _) ?h2] =>
      destruct (symbol_loop W C (symbols C) h2) as [Hloop _]; rewrite Hloop
  end.
  rewrite outcome_bind.
  match goal with
  | |- context [outcome (eod_cleanup W C) ?h3] =>
      exists h3; destruct (outcome (eod_cleanup W C) h3) as [[]|e];
      reflexivity
  end.
Qed.

(** X19: no exception of a symbol ever leaves [run_strategy]: a run that
    raises was stopped either by [connect_ib], before the first symbol, or
    by [eod_cleanup], after the last one. *)
Theorem run_strategy_failures (W : World) (C : Config) (h : history)
        (e : exn) :
  outcome (run_strategy W C) h = Raise e ->
  outcome (connect_ib W C) (h ++ [Log INFO Msg_started; Print Msg_started])
  = Raise e \/
  exists h', outcome (eod_cleanup W C) h' = Raise e.
Proof.
  intro Hraise.
  destruct (outcome (connect_ib W C)
                    (h ++ [Log INFO Msg_started; Print Msg_started]))
    as [[]|e0] eqn:Hconn.
  - right. destruct (run_strategy_outcome W C h Hconn) as [h' Hrun].
    exists h'. now rewrite <- Hrun.
  - left. destruct (run_strategy_connect_fails W C h e0 Hconn) as [Hrun _].
    congruence.
Qed.

Lemma run_strategy_failures_witness :
  outcome (connect_ib failing_world live_config)
          ([] ++ [Log INFO Msg_started; Print Msg_started])
  = Raise (BrokerError 504) \/
  exists h', outcome (eod_cleanup failing_world live_config) h'
             = Raise (BrokerError 504).
Proof.
  apply (run_strategy_failures failing_world live_config []).
  reflexivity.
Defined.

Lemma eod_cleanup_dummy_outcome (W : World) (C : Config) (h : history) :
  is_dummy C = true ->
  outcome (eod_cleanup W C) h =
  match eod_time C with Ok _ => Ok tt | Raise e => Raise e end.
Proof.
  intro Hd. unfold eod_cleanup. rewrite Hd. repeat exec_step.
  destruct (eod_time C) as [cutoff|e]; [|reflexivity].
  cbv beta iota.
  destruct (dt_tod (w_now W (h ++ [Call F_eod_cleanup]) true) <? cutoff);
    reflexivity.
Qed.

(** X20: in DUMMY mode the outcome of a run depends on one thing only: it
    returns normally when [eod_time] is well formed, and raises the
    [ValueError] of [time.fromisoformat] otherwise, whatever the clock, the
    random draws and the symbols. *)
Theorem dummy_run_outcome (W : World) (C : Config) (h : history) :
  mode C = "DUMMY"%string ->
  outcome (run_strategy W C) h =
  match eod_time C with Ok _ => Ok tt | Raise e => Raise e end.
Proof.
  intro Hmode. apply mode_is_dummy in Hmode.
  assert (Hconn : outcome (connect_ib W C)
                          (h ++ [Log INFO Msg_started; Print Msg_started])
                  = Ok tt).
  { unfold connect_ib. rewrite Hmode. reflexivity. }
  destruct (run_strategy_outcome W C h Hconn) as [h' Hrun].
  rewrite Hrun. now apply eod_cleanup_dummy_outcome.
Qed.

Lemma dummy_run_outcome_witness :
  outcome (run_strategy calm_world default_config) [] = Ok tt /\
  outcome (run_strategy calm_world (with_eod_time default_config
                                                  (Raise ValueError))) []
  = Raise ValueError.
Proof.
  split.
  - apply (dummy_run_outcome calm_world default_config []). reflexivity.
  - apply (dummy_run_outcome
             calm_world (with_eod_time default_config (Raise ValueError)) []).
    reflexivity.
Defined.

(** X21: when the connection cannot be established in live mode the
    exception leaves [run_strategy] at once: no symbol is started and
    [eod_cleanup] is not entered. *)
Theorem connection_failure_aborts (W : World) (C : Config) (h : history)
        (e : exn) :
  w_connect W (h ++ [Log INFO Msg_started; Print Msg_started;
                     Call F_connect_ib]) = Raise e ->
  is_dummy C = false ->
  outcome (run_strategy W C) h = Raise e /\
  events (run_strategy W C) h =
  [Log INFO Msg_started; Print Msg_started; Call F_connect_ib;
   IB_connect (ib_host C) (ib_port C) (ib_client_id C)].
Proof.
  intros Hw Hd. unfold run_strategy, connect_ib. rewrite Hd. cbn [negb].
  repeat exec_step. rewrite <- app_assoc. cbn [app]. rewrite Hw.
  split; reflexivity.
Qed.

Lemma connection_failure_aborts_witness :
  outcome (run_strategy offline_world live_config) [] = Raise (BrokerError 502) /\
  events (run_strategy offline_world live_config) [] =
  [Log INFO Msg_started; Print Msg_started; Call F_connect_ib;
   IB_connect (ib_host live_config) (ib_port live_config)
              (ib_client_id live_config)].
Proof.
  apply (connection_failure_aborts offline_world live_config []).
  - reflexivity.
  - reflexivity.
Defined.

(* ------------------------------------------------------------------ *)
(** ** The requests of a live run *)

Lemma connect_ib_no_hist W C : emits_only no_hist_request (connect_ib W C).
Proof. unfold connect_ib. emits_tac. Qed.

Lemma eod_cleanup_no_hist W C : emits_only no_hist_request (eod_cleanup W C).
Proof. unfold eod_cleanup, flatten_position. emits_tac. Qed.

Lemma trade_no_hist W C sym bars t d :
  emits_only no_hist_request (trade W C sym bars t d).
Proof. unfold trade. emits_tac. Qed.

Lemma hist_requests_guarded_symbol W C sym h :
  is_dummy C = false ->
  filter is_hist_request (events (guarded_symbol W C sym) h)
  = [IB_reqHistoricalData sym].
Proof.
  intro Hd.
  assert (Hbody : filter is_hist_request (events (process_symbol W C sym) h)
                  = [IB_reqHistoricalData sym]).
  { unfold process_symbol. rewrite events_bind, filter_app.
    assert (Hg : events (get_bars W C sym) h
                 = [Call (F_get_bars sym); IB_reqHistoricalData sym]).
    { unfold get_bars. rewrite Hd. reflexivity. }
    rewrite Hg. cbn [filter is_hist_request app].
    rewrite filter_none; [reflexivity|].
    destruct (outcome (get_bars W C sym) h) as [bars|e]; [|constructor].
    assert (Hrest : emits_only no_hist_request
              (trig <- lift (find_trigger C bars) ;;
               match trig with
               | None => log_print INFO (Msg_no_trigger sym)
               | Some (t_time, d) => trade W C sym bars t_time d
               end)).
    { apply emits_only_bind; [apply emits_only_lift|].
      intros [[t d]|]; [apply trade_no_hist|].
      apply emits_only_log_print; reflexivity. }
    apply Hrest. }
  unfold guarded_symbol, events at 1. rewrite run_try_except.
  destruct (outcome (process_symbol W C sym) h) as [[]|e]; cbn [snd].
  - exact Hbody.
  - rewrite filter_app. fold (events (process_symbol W C sym) h).
    now rewrite Hbody.
Qed.

Lemma hist_requests_loop W C (syms : list string) :
  is_dummy C = false ->
  forall h,
    filter is_hist_request (events (for_each (guarded_symbol W C) syms) h)
    = map IB_reqHistoricalData syms.
Proof.
  intro Hd. induction syms as [|s syms IH]; intro h; [reflexivity|].
  simpl for_each. rewrite events_bind, guarded_symbol_returns.
  rewrite filter_app, hist_requests_guarded_symbol by exact Hd.
  now rewrite IH.
Qed.

(** X22: a live run whose connection succeeded asks the broker for
    historical bars exactly once per configured symbol, in the configured
    order, whatever happens to each symbol; and its first broker request is
    the connection to the configured host, port and client id. *)
Theorem live_run_requests (W : World) (C : Config) (h : history) :
  is_dummy C = false ->
  outcome (connect_ib W C) (h ++ [Log INFO Msg_started; Print Msg_started])
  = Ok tt ->
  filter is_hist_request (events (run_strategy W C) h)
  = map IB_reqHistoricalData (symbols C) /\
  exists rest,
    filter is_broker_call (events (run_strategy W C) h)
    = IB_connect (ib_host C) (ib_port C) (ib_client_id C) :: rest.
Proof.
  intros Hd Hconn. unfold run_strategy.
  rewrite events_bind, outcome_log_print, events_log_print.
  set (h1 := h ++ [Log INFO Msg_started; Print Msg_started]) in *.
  rewrite events_bind, Hconn.
  set (h2 := h1 ++ events (connect_ib W C) h1).
  rewrite events_bind.
  destruct (symbol_loop W C (symbols C) h2) as [Hloop _]. rewrite Hloop.
  set (h3 := h2 ++ events (for_each (guarded_symbol W C) (symbols C)) h2).
  rewrite events_bind. split.
  - rewrite !filter_app, (hist_requests_loop W C _ Hd).
    rewrite (filter_none _ _ (connect_ib_no_hist W C h1)).
    rewrite (filter_none _ _ (eod_cleanup_no_hist W C h3)).
    assert (Htail : filter is_hist_request
              match outcome (eod_cleanup W C) h3 with
              | Ok _ => events (log_print INFO Msg_completed)
                               (h3 ++ events (eod_cleanup W C) h3)
              | Raise _ => []
              end = []).
    { destruct (outcome (eod_cleanup W C) h3); reflexivity. }
    rewrite Htail. cbn [filter is_hist_request app]. now rewrite app_nil_r.
  - assert (Hc : exists tl, events (connect_ib W C) h1
                            = Call F_connect_ib
                              :: IB_connect (ib_host C) (ib_port C)
                                            (ib_client_id C) :: tl).
    { unfold connect_ib. rewrite Hd. cbn [negb]. repeat exec_step.
      eexists. reflexivity. }
    destruct Hc as [tl Hc]. rewrite Hc.
    cbn [app filter is_broker_call]. eexists. reflexivity.
Qed.

Lemma live_run_requests_witness :
  filter is_hist_request (events (run_strategy failing_world live_config) [])
  = map IB_reqHistoricalData (symbols live_config) /\
  exists rest,
    filter is_broker_call (events (run_strategy failing_world live_config) [])
    = IB_connect (ib_host live_config) (ib_port live_config)
                 (ib_client_id live_config) :: rest.
Proof.
  apply (live_run_requests failing_world live_config []).
  - reflexivity.
  - reflexivity.
Defined.

(* ------------------------------------------------------------------ *)
(** ** What a simulated run can buy *)

Lemma synthetic_frame_trigger_down (C : Config) (df : DataFrame) (t : Z)
      (d : direction) :
  Forall synthetic_row df ->
  find_trigger C df = Ok (Some (t, d)) -> d = down.
Proof.
  intros Hrows H. destruct df as [|b0 rest]; [discriminate|].
  unfold find_trigger in H.
  destruct (after_warmup C (ts b0) (b0 :: rest)) as [|first others] eqn:E;
    [discriminate|].
  destruct (scan_returns_row _ _ _ _ _ H) as [curr [Hin [_ Hd]]].
  assert (Hdf : In curr (b0 :: rest)).
  { assert (Hk : In curr (after_warmup C (ts b0) (b0 :: rest)))
      by (rewrite E; now right).
    unfold after_warmup in Hk. now apply filter_In in Hk. }
  rewrite Forall_forall in Hrows.
  pose proof (synthetic_not_up _ (Hrows _ Hdf)) as Hn.
  rewrite <- Hd. now apply dir_of_down.
Qed.

(** X23: in DUMMY mode every simulated entry of a symbol is a put: whenever
    the processing of a symbol logs a [DUMMY] BUY, the contract is a PUT on
    that symbol and the quantity is at least 1.  No simulated run ever
    selects a call. *)
Theorem dummy_buys_are_puts (W : World) (C : Config) (sym : string)
        (h : history) (q : Z) (c : Contract) :
  is_dummy C = true ->
  In (Log INFO (Msg_dummy_buy q c)) (events (process_symbol W C sym) h) ->
  c_right c = PUT /\ c_symbol c = sym /\ 1 <= q.
Proof.
  intros Hd.
  unfold process_symbol. rewrite events_bind.
  rewrite (get_bars_synthetic W C Hd).
  cbv beta iota.
  match goal with
  | |- context [dummy_frame ?now ?noise] =>
      pose proof (dummy_frame_rows now noise) as Hrows;
      set (df := dummy_frame now noise) in *; clearbody df
  end.
  assert (Hg : events (get_bars W C sym) h
               = [Call (F_get_bars sym); Datetime_now false; Randn 72]).
  { unfold get_bars. rewrite Hd. reflexivity. }
  rewrite Hg. clear Hg.
  rewrite events_bind, outcome_lift, events_lift.
  destruct (find_trigger C df) as [[[t d]|]|e] eqn:Htrig.
  - pose proof (synthetic_frame_trigger_down C df t d Hrows Htrig) as Hdown.
    subst d. unfold trade, select_option, place_orders. rewrite Hd.
    destruct (reference_price df) as [p|e] eqn:Hp.
    + repeat exec_step.
      destruct (size C p <? 1) eqn:Hsz; rewrite ?Hsz; repeat exec_step.
      * cbn [app In]. intro Hin.
        repeat (destruct Hin as [Hin|Hin]; try discriminate Hin).
        contradiction.
      * cbn [app In]. intro Hin.
        repeat (destruct Hin as [Hin|Hin]; try discriminate Hin);
          try contradiction.
        injection Hin as Hq Hc. subst q c. cbn [c_right c_symbol].
        apply Z.ltb_ge in Hsz. repeat split; assumption || reflexivity.
    + repeat exec_step. cbn [app In]. intro Hin.
      repeat (destruct Hin as [Hin|Hin]; try discriminate Hin).
      contradiction.
  - rewrite events_log_print. cbn [app In]. intro Hin.
    repeat (destruct Hin as [Hin|Hin]; try discriminate Hin).
    contradiction.
  - cbn [app In]. intro Hin.
    repeat (destruct Hin as [Hin|Hin]; try discriminate Hin).
    contradiction.
Qed.

Lemma dummy_buys_are_puts_witness :
  exists c,
    In (Log INFO (Msg_dummy_buy 3 c))
       (events (process_symbol calm_world (with_budget default_config 100000)
                               "SPY") []) /\
    c_right c = PUT /\ c_symbol c = "SPY"%string /\ 1 <= 3.
Proof.
  exists {| c_symbol := "SPY"; c_expiry := 1; c_strike := 292;
            c_right := PUT; c_exchange := "SMART" |}.
  assert (Hin : In (Log INFO (Msg_dummy_buy 3
                      {| c_symbol := "SPY"; c_expiry := 1; c_strike := 292;
                         c_right := PUT; c_exchange := "SMART" |}))
                   (events (process_symbol calm_world
                              (with_budget default_config 100000) "SPY") [])).
  { vm_compute. do 8 right. left. reflexivity. }
  split; [exact Hin|].
  apply (dummy_buys_are_puts calm_world (with_budget default_config 100000)
                             "SPY" [] 3 _ eq_refl Hin).
Defined.
